(** * OSM API v0.6 XML to RDF Turtle: a shallow embedding of [handler.py]

    The development follows [src/function/api-rdf/handler.py]:
    the module constants, [OSMApiv06Xml], [OSMElement], [OSMElementFilter],
    [OSMElementTagger], [OSMElementTagValueCast] and the [osmrdf_*]
    functions.  Python [str] is modelled as [string] (its UTF-8 bytes),
    [int] as [Z], [float] as the binary64 primitive [float], [dict] with
    string keys as [gmap string _], [None]-able values as [option], and a
    raised exception as the [Raise] case of [result]. *)

From Stdlib Require Import ZArith String Ascii List Bool Lia.
From Stdlib Require Import Numbers.DecimalString.
From Stdlib Require Import Floats.PrimFloat.
From stdpp Require Import base option list strings gmap.

Local Open Scope string_scope.
Local Open Scope list_scope.

(** ** Exceptions and fallible computations *)

Inductive exn : Type :=
| KeyError
| ValueError
| AttributeError
| IndexError
| ParseError
| SystemExit.

Inductive result (A : Type) : Type :=
| Ok (a : A)
| Raise (e : exn).

Arguments Ok {A} a.
Arguments Raise {A} e.

#[export] Instance result_ret : MRet result := fun A a => Ok a.

#[export] Instance result_bind : MBind result := fun A B k m =>
  match m with
  | Ok a => k a
  | Raise e => Raise e
  end.

Definition of_option {A : Type} (e : exn) (o : option A) : result A :=
  match o with
  | Some a => Ok a
  | None => Raise e
  end.

(** ** Python built-ins used by the handler *)

Module Py.

(** [s.startswith(p)] *)
Fixpoint startswith (p s : string) : bool :=
  match p, s with
  | EmptyString, _ => true
  | String a p', String b s' => if Ascii.eqb a b then startswith p' s' else false
  | String _ _, EmptyString => false
  end.

(** [needle in hay] on two strings: [needle] occurs in [hay] as a
    contiguous substring. *)
Fixpoint str_in (needle hay : string) : bool :=
  if startswith needle hay then true
  else match hay with
       | EmptyString => false
       | String _ hay' => str_in needle hay'
       end.

(** [x in l] on a list of strings. *)
Definition list_in (x : string) (l : list string) : bool :=
  existsb (String.eqb x) l.

(** [s.replace(old, new)] for a non-empty [old]: occurrences are replaced
    left to right, without overlap.  [skip] counts the characters of a
    matched occurrence that are still to be passed over. *)
Fixpoint replace_from (old new s : string) (skip : nat) : string :=
  match s with
  | EmptyString => EmptyString
  | String c s' =>
      match skip with
      | S k => replace_from old new s' k
      | O =>
          if startswith old s
          then new +:+ replace_from old new s' (String.length old - 1)
          else String c (replace_from old new s' 0)
      end
  end.

Definition replace (old new s : string) : string :=
  replace_from old new s 0.

(** [s.split(sep)] for a non-empty [sep]; [cur] is the piece being read. *)
Fixpoint split_from (sep s : string) (skip : nat) (cur : string) : list string :=
  match s with
  | EmptyString => [cur]
  | String c s' =>
      match skip with
      | S k => split_from sep s' k cur
      | O =>
          if startswith sep s
          then cur :: split_from sep s' (String.length sep - 1) EmptyString
          else split_from sep s' 0 (cur +:+ String c EmptyString)
      end
  end.

Definition split (sep s : string) : list string :=
  split_from sep s 0 EmptyString.

(** The double quote character. *)
Definition DQ : string := String (ascii_of_nat 34) EmptyString.

(** The line feed character, written [\n] in the source. *)
Definition LF : string := String (ascii_of_nat 10) EmptyString.

(** The horizontal tab, written [\t] in the source. *)
Definition TAB : string := String (ascii_of_nat 9) EmptyString.

(** The length of the line boundary at the head of [s], if there is one:
    CR LF, or one of LF, VT, FF, CR, FS, GS, RS, or the UTF-8 bytes of
    NEL, LINE SEPARATOR and PARAGRAPH SEPARATOR. *)
Definition line_boundary (s : string) : option nat :=
  let bytes (l : list nat) :=
    fold_right (fun n acc => String (ascii_of_nat n) acc) EmptyString l in
  if startswith (bytes [13; 10]) s then Some 2
  else if existsb (fun n => startswith (bytes [n]) s) [10; 11; 12; 13; 28; 29; 30]
  then Some 1
  else if startswith (bytes [194; 133]) s then Some 2
  else if startswith (bytes [226; 128; 168]) s
          || startswith (bytes [226; 128; 169]) s
  then Some 3
  else None.

(** [s.splitlines()]: the lines without their boundaries; a boundary at
    the very end opens no further line. *)
Fixpoint splitlines_from (s : string) (skip : nat) (cur : string) : list string :=
  match s with
  | EmptyString => if String.eqb cur EmptyString then [] else [cur]
  | String c s' =>
      match skip with
      | S k => splitlines_from s' k cur
      | O =>
          match line_boundary s with
          | Some n => cur :: splitlines_from s' (n - 1) EmptyString
          | None => splitlines_from s' 0 (cur +:+ String c EmptyString)
          end
      end
  end.

Definition splitlines (s : string) : list string :=
  splitlines_from s 0 EmptyString.

(** [sep.join(l)] *)
Fixpoint join (sep : string) (l : list string) : string :=
  match l with
  | [] => EmptyString
  | [x] => x
  | x :: rest => x +:+ sep +:+ join sep rest
  end.

(** [str(n)] for an [int]. *)
Definition str_int (n : Z) : string :=
  NilZero.string_of_int (Z.to_int n).

(** [l.remove(x)]: deletes the first occurrence, [ValueError] when there
    is none. *)
Fixpoint list_remove (x : nat) (l : list nat) : result (list nat) :=
  match l with
  | [] => Raise ValueError
  | y :: l' =>
      if Nat.eqb y x then Ok l'
      else l'' ← list_remove x l'; Ok (y :: l'')
  end.

(** [l[i]] *)
Definition getitem {A : Type} (l : list A) (i : nat) : result A :=
  of_option IndexError (l !! i).

(** [d[k]] *)
Definition dict_get {A : Type} (d : gmap string A) (k : string) : result A :=
  of_option KeyError (d !! k).

(** [for x in l: ...] collecting one result per item, stopping at the
    first exception. *)
Fixpoint for_each {A B : Type} (f : A -> result B) (l : list A) : result (list B) :=
  match l with
  | [] => Ok []
  | x :: l' => y ← f x; ys ← for_each f l'; Ok (y :: ys)
  end.

(** [str(o)] for an optional [int]: [None] prints as its name. *)
Definition str_opt_int (o : option Z) : string :=
  match o with
  | Some n => str_int n
  | None => "None"
  end.

Definition str_opt (o : option string) : string :=
  match o with
  | Some s => s
  | None => "None"
  end.

(** Truth value of an object in a condition. *)
Definition truthy_int (o : option Z) : bool :=
  match o with
  | Some n => negb (Z.eqb n 0)
  | None => false
  end.

Definition truthy_str (o : option string) : bool :=
  match o with
  | Some s => negb (String.eqb s "")
  | None => false
  end.

Definition truthy_float (o : option PrimFloat.float) : bool :=
  match o with
  | Some x => negb (PrimFloat.eqb x 0%float)
  | None => false
  end.

Definition truthy_list {A : Type} (o : option (list A)) : bool :=
  match o with
  | Some (_ :: _) => true
  | _ => false
  end.

(** Built-ins whose result depends on the interpreter's number syntax and
    float printing: [int(s)], [float(s)] ([None] stands for [ValueError])
    and [str(x)] for a float. *)
Class Builtins : Type := {
  int_of_str : string -> option Z;
  float_of_str : string -> option float;
  str_of_float : float -> string
}.

Definition int `{Builtins} (s : string) : result Z :=
  of_option ValueError (int_of_str s).

Definition float `{Builtins} (s : string) : result PrimFloat.float :=
  of_option ValueError (float_of_str s).

End Py.

(** ** Module constants *)

Definition RDF_TURTLE_PREFIXES : list string :=
  [ "PREFIX geo: <http://www.opengis.net/ont/geosparql#>";
    "PREFIX osmnode: <https://www.openstreetmap.org/node/>";
    "PREFIX osmrel: <https://www.openstreetmap.org/relation/>";
    "PREFIX osmway: <https://www.openstreetmap.org/way/>";
    "PREFIX osmm: <https://example.org/todo-meta/>";
    "PREFIX osmt: <https://wiki.openstreetmap.org/wiki/Key:>";
    "PREFIX osmx: <https://example.org/todo-xref/>";
    "PREFIX wikidata: <http://www.wikidata.org/entity/>";
    "PREFIX xsd: <http://www.w3.org/2001/XMLSchema#>" ].

Definition OSM_ELEMENT_PREFIX : gmap string string :=
  <["node" := "osmnode:"]>
  (<["relation" := "osmrel:"]>
  (<["tag" := "osmt:"]>
  (<["way" := "osmway:"]> ∅))).

Definition OSM_ELEMENT_TYPE_LITERAL : gmap string string :=
  <["node" := "n"]>
  (<["way" := "w"]>
  (<["rel" := "r"]> ∅)).

(** ** Tag key encoder *)

Definition osmrdf_tagkey_encode (raw_tag : string) : string :=
  Py.replace " " "%20" raw_tag.


(** ** [OSMElementFilter]: what to output *)

Module OSMElementFilter.

Record t : Type := {
  xml_tags : option (list string);
  xml_tags_not : option (list string)
}.

Definition __init__ : t :=
  {| xml_tags := None; xml_tags_not := None |}.

Definition set_filter_xml_tags (self : t) (tags : list string) : t :=
  {| xml_tags := Some tags; xml_tags_not := xml_tags_not self |}.

Definition set_filter_xml_tags_not (self : t) (tags : list string) : t :=
  {| xml_tags := xml_tags self; xml_tags_not := Some tags |}.

(** [tag in self.xml_tags], reached only when the list is not [None]. *)
Definition tag_in (tag : string) (l : option (list string)) : bool :=
  match l with
  | Some l => Py.list_in tag l
  | None => false
  end.

Definition can_tag (self : t) (tag : string) : bool :=
  if negb (Py.truthy_list (xml_tags self))
     && negb (Py.truthy_list (xml_tags_not self))
  then true
  else if (negb (Py.truthy_list (xml_tags self)) || tag_in tag (xml_tags self))
          && (negb (Py.truthy_list (xml_tags_not self))
              || negb (tag_in tag (xml_tags_not self)))
  then true
  else false.

End OSMElementFilter.

(** ** [OSMElementTagValueCast]: typed copies of known tags *)

Module OSMElementTagValueCast.

Record t : Type := {
  rules : option (list string)
}.

(** [parse_rules] only splits its argument and stores nothing. *)
Definition __init__ (rules_tsv : option string) : t :=
  {| rules := None |}.

Definition can_cast (self : t) (tagkey : string) : bool :=
  Py.list_in tagkey ["wikidata"].

Definition to_ttl (self : t) (tagkey tagvalue : string) : string :=
  "    osmx:" +:+ tagkey +:+ " wikidata:" +:+ tagvalue +:+ " ;".

End OSMElementTagValueCast.

(** ** [OSMElement]: one node, way or relation *)

Module OSMElement.

Record t : Type := {
  _basegroup : string;
  _tag : string;
  _el_osm_tags : option (list (string * string));
  _el_osm_nds : option (list Z);
  _el_osm_members : option (list (string * Z * option string));
  _xml_filter : option OSMElementFilter.t;
  _tagcaster : option OSMElementTagValueCast.t;
  id : option Z;
  changeset : option Z;
  timestamp : option string;
  user : option string;
  userid : option Z;
  version : option string;
  lat : option PrimFloat.float;
  lon : option PrimFloat.float
}.

Section WithBuiltins.
Context `{Py.Builtins}.

(** [conv(meta[k]) if k in meta else None] *)
Definition parsed {A : Type} (conv : string -> result A)
    (meta : gmap string string) (k : string) : result (option A) :=
  match meta !! k with
  | Some v => a ← conv v; Ok (Some a)
  | None => Ok None
  end.

Definition __init__ (tag : string) (meta : gmap string string)
    (xml_tags : option (list (string * string)))
    (xml_nds : option (list Z))
    (xml_members : option (list (string * Z * option string)))
    (xml_filter : option OSMElementFilter.t)
    (tagcaster : option OSMElementTagValueCast.t) : result t :=
  id_ ← parsed Py.int meta "id";
  let version_ := meta !! "version" in
  changeset_ ← parsed Py.int meta "changeset";
  let timestamp_ := meta !! "timestamp" in
  let user_ := meta !! "user" in
  userid_ ← parsed Py.int meta "uid";
  lat_ ← parsed Py.float meta "lat";
  lon_ ← parsed Py.float meta "lon";
  prefix ← Py.dict_get OSM_ELEMENT_PREFIX tag;
  Ok {| _basegroup := prefix +:+ Py.str_opt_int id_;
        _tag := tag;
        _el_osm_tags := xml_tags;
        _el_osm_nds := xml_nds;
        _el_osm_members := xml_members;
        _xml_filter := xml_filter;
        _tagcaster := tagcaster;
        id := id_;
        changeset := changeset_;
        timestamp := timestamp_;
        user := user_;
        userid := userid_;
        version := version_;
        lat := lat_;
        lon := lon_ |}.

Definition can_output (self : t) : result bool :=
  match _xml_filter self with
  | None => Raise AttributeError
  | Some f =>
      if negb (OSMElementFilter.can_tag f (_tag self)) then Ok false
      else Ok true
  end.

(** The blocks of lines that [to_ttl] appends to [data], in the order of
    the source. *)

Definition ttl_changeset (self : t) : list string :=
  if Py.truthy_int (changeset self)
  then ["    osmm:changeset " +:+ Py.str_opt_int (changeset self) +:+ " ;"]
  else [].

Definition str_opt_float (o : option PrimFloat.float) : string :=
  match o with
  | Some x => Py.str_of_float x
  | None => "None"
  end.

Definition ttl_loc (self : t) : list string :=
  if Py.truthy_float (lat self) && Py.truthy_float (lon self)
  then ["    osmm:loc " +:+ Py.DQ +:+ "Point(" +:+ str_opt_float (lat self)
          +:+ " " +:+ str_opt_float (lon self) +:+ ")" +:+ Py.DQ
          +:+ "^^geo:wktLiteral ;"]
  else [].

Definition ttl_timestamp (self : t) : list string :=
  if Py.truthy_str (timestamp self)
  then ["    osmm:timestamp " +:+ Py.DQ +:+ Py.str_opt (timestamp self)
          +:+ Py.DQ +:+ "^^xsd:dateTime ;"]
  else [].

Definition ttl_type (self : t) : list string :=
  match OSM_ELEMENT_TYPE_LITERAL !! _tag self with
  | Some literal => ["    osmm:type " +:+ Py.DQ +:+ literal +:+ Py.DQ +:+ " ;"]
  | None => []
  end.

Definition ttl_user (self : t) : list string :=
  if Py.truthy_str (user self)
  then ["    osmm:user " +:+ Py.DQ +:+ Py.str_opt (user self) +:+ Py.DQ +:+ " ;"]
  else [].

Definition ttl_userid (self : t) : list string :=
  if Py.truthy_int (userid self)
  then ["    osmm:userid " +:+ Py.str_opt_int (userid self) +:+ " ;"]
  else [].

Definition ttl_version (self : t) : list string :=
  if Py.truthy_str (version self)
  then ["    osmm:version " +:+ Py.str_opt (version self) +:+ " ;"]
  else [].

(** One pass of the loop over [self._el_osm_tags]. *)
Definition ttl_tag (self : t) (kv : string * string) : list string :=
  let '(key, value) := kv in
  let _escp_key := osmrdf_tagkey_encode key in
  ("    osmt:" +:+ _escp_key +:+ " " +:+ Py.DQ +:+ value +:+ Py.DQ +:+ " ;")
  :: match _tagcaster self with
     | Some caster =>
         if OSMElementTagValueCast.can_cast caster _escp_key
         then [OSMElementTagValueCast.to_ttl caster _escp_key value]
         else []
     | None => []
     end.

Definition ttl_tags (self : t) : list string :=
  match _el_osm_tags self with
  | Some tags => concat (map (ttl_tag self) tags)
  | None => []
  end.

Definition ttl_nds (self : t) : list string :=
  match _el_osm_nds self with
  | Some (ref :: refs) =>
      let _parts := map (fun ref => "osmnode:" +:+ Py.str_int ref) (ref :: refs) in
      ["    osmx:hasnodes (" +:+ Py.join " " _parts +:+ ") ;"]
  | _ => []
  end.

Definition ttl_member (m : string * Z * option string) : result string :=
  let '(_type, _ref, _role) := m in
  _prefix ← Py.dict_get OSM_ELEMENT_PREFIX _type;
  Ok ("[osmx:hasrole" +:+ Py.str_opt _role +:+ " " +:+ _prefix
        +:+ Py.str_int _ref +:+ "]").

Definition ttl_members (self : t) : result (list string) :=
  match _el_osm_members self with
  | Some (m :: ms) =>
      _parts ← Py.for_each ttl_member (m :: ms);
      Ok ["    osmx:hasmembers (" +:+ Py.join " " _parts +:+ ") ;"]
  | _ => Ok []
  end.

Definition to_ttl (self : t) : result (list string) :=
  members ← ttl_members self;
  Ok ([_basegroup self]
        ++ ttl_changeset self
        ++ ttl_loc self
        ++ ttl_timestamp self
        ++ ttl_type self
        ++ ttl_user self
        ++ ttl_userid self
        ++ ttl_version self
        ++ ttl_tags self
        ++ ttl_nds self
        ++ members
        ++ ["."]).

End WithBuiltins.

End OSMElement.

(** ** [OSMApiv06Xml]: an XML document that fits into memory *)

(** An element of [xml.etree.ElementTree]: its tag, attributes and
    children. *)
#[warnings="-register-all"]
Inductive xml_element : Type :=
| XmlElement (tag : string) (attrib : gmap string string)
    (children : list xml_element).

Definition xml_tag (e : xml_element) : string :=
  match e with XmlElement tag _ _ => tag end.

Definition xml_attrib (e : xml_element) : gmap string string :=
  match e with XmlElement _ attrib _ => attrib end.

Definition xml_children (e : xml_element) : list xml_element :=
  match e with XmlElement _ _ children => children end.

(** [e.findall(name)] with a plain tag name: the direct children of that
    name, in document order. *)
Definition findall (e : xml_element) (name : string) : list xml_element :=
  filter (fun c => xml_tag c = name) (xml_children e).

(** [XMLElementTree.fromstring], the XML reader of the standard library. *)
Class XmlReader : Type := {
  fromstring : string -> result xml_element
}.

Module OSMApiv06Xml.

Record t : Type := {
  xmlroot : xml_element;
  root_tag : string;
  root_attrib : gmap string string
}.

Definition __init__ `{XmlReader} (file_or_string : string) : result t :=
  root ← fromstring file_or_string;
  Ok {| xmlroot := root;
        root_tag := xml_tag root;
        root_attrib := xml_attrib root |}.

Section WithBuiltins.
Context `{Py.Builtins}.

Definition read_tag (item : xml_element) : result (string * string) :=
  k ← Py.dict_get (xml_attrib item) "k";
  v ← Py.dict_get (xml_attrib item) "v";
  Ok (k, v).

Definition read_nd (item : xml_element) : result Z :=
  ref ← Py.dict_get (xml_attrib item) "ref";
  Py.int ref.

Definition read_member (item : xml_element)
  : result (string * Z * option string) :=
  _type ← Py.dict_get (xml_attrib item) "type";
  ref ← Py.dict_get (xml_attrib item) "ref";
  _ref ← Py.int ref;
  let _role := xml_attrib item !! "role" in
  Ok (_type, _ref, _role).

(** [None] when [findall] finds nothing, else the list read item by item. *)
Definition read_all {A : Type} (read : xml_element -> result A)
    (items : list xml_element) : result (option (list A)) :=
  match items with
  | [] => Ok None
  | _ :: _ => l ← Py.for_each read items; Ok (Some l)
  end.

(** [node] returns from inside its loop, at the first child; without a
    child it returns [None]. *)
Definition node (self : t) : result (option OSMElement.t) :=
  match xml_children (xmlroot self) with
  | [] => Ok None
  | child :: _ =>
      xml_tags ← read_all read_tag (findall child "tag");
      xml_nds ← read_all read_nd (findall child "nd");
      xml_members ← read_all read_member (findall child "member");
      el ← OSMElement.__init__ (xml_tag child) (xml_attrib child)
             xml_tags xml_nds xml_members None None;
      Ok (Some el)
  end.

End WithBuiltins.

End OSMApiv06Xml.

(** ** Single-element conversions *)

Section Conversions.
Context `{Py.Builtins} `{XmlReader}.

(** [osmnode.to_ttl()] on the value returned by [node]. *)
Definition to_ttl_of (osmnode : option OSMElement.t) : result (list string) :=
  match osmnode with
  | Some el => OSMElement.to_ttl el
  | None => Raise AttributeError
  end.

Definition osmrdf_node_xml2ttl (data_xml : string) : result string :=
  osmx ← OSMApiv06Xml.__init__ data_xml;
  osmnode ← OSMApiv06Xml.node osmx;
  ttl ← to_ttl_of osmnode;
  let output := RDF_TURTLE_PREFIXES ++ [""] ++ ttl ++ [""] in
  Ok (Py.join Py.LF output).

Definition osmrdf_relation_xml2ttl (data_xml : string) : result string :=
  osmx ← OSMApiv06Xml.__init__ data_xml;
  osmnode ← OSMApiv06Xml.node osmx;
  ttl ← to_ttl_of osmnode;
  let comment :=
    "# " +:+ Py.join (Py.LF +:+ "# ") (Py.split Py.LF data_xml) in
  let output := RDF_TURTLE_PREFIXES ++ [""] ++ ttl ++ [""] ++ [comment] in
  Ok (Py.join Py.LF output).

Definition osmrdf_way_xml2ttl (data_xml : string) : result string :=
  osmx ← OSMApiv06Xml.__init__ data_xml;
  osmnode ← OSMApiv06Xml.node osmx;
  ttl ← to_ttl_of osmnode;
  let output := RDF_TURTLE_PREFIXES ++ [""] ++ ttl ++ [""] in
  Ok (Py.join Py.LF output).

End Conversions.
(** ** [OSMElementTagger]: rule-driven rewriting of tag lists *)

Module OSMElementTagger.

(** One parsed rule line, the dict built by [parse_rules]: ['i'] is the
    index of the line, ['op'] the operation ([+] or [-]), ['xt'] the element
    names the rule is for ([None] for [*]), ['xa'] the attribute filter,
    ['xack'] and ['xacv'] the key and the value. *)
Record rule : Type := {
  i : nat;
  op : string;
  xt : option (list string);
  xa : option string;
  xack : string;
  xacv : string
}.

Record t : Type := {
  rules : option (list rule)
}.

Abbreviation tags := (list (string * string)).

(** [a, b = s.split('=')]: exactly two pieces, else [ValueError]. *)
Definition unpack_pair (pieces : list string) : result (string * string) :=
  match pieces with
  | [a; b] => Ok (a, b)
  | _ => Raise ValueError
  end.

(** [s[0] == '*'] on a string. *)
Definition starts_with_star (s : string) : result bool :=
  match s with
  | EmptyString => Raise IndexError
  | String c _ => Ok (Ascii.eqb c "*")
  end.

(** The body of the loop of [parse_rules], for the line of index
    [index]. *)
Definition parse_line (index : nat) (text : string) : result rule :=
  let line := Py.split Py.TAB text in
  _op ← Py.getitem line 0;
  field1 ← Py.getitem line 1;
  let _xml_tag := Py.split "|" (Py.replace ">" "" (Py.replace "<" "" field1)) in
  _xml_attrs ← Py.getitem line 2;
  field3 ← Py.getitem line 3;
  kv ← unpack_pair (Py.split "=" field3);
  first ← Py.getitem _xml_tag 0;
  let _xml_tag := if String.eqb first "*" then None else Some _xml_tag in
  star ← starts_with_star _xml_attrs;
  let _xml_attrs := if (star : bool) then None else Some _xml_attrs in
  Ok {| i := index; op := _op; xt := _xml_tag; xa := _xml_attrs;
        xack := kv.1; xacv := kv.2 |}.

Fixpoint parse_lines (index : nat) (parts : list string) : result (list rule) :=
  match parts with
  | [] => Ok []
  | text :: parts' =>
      r ← parse_line index text;
      rs ← parse_lines (S index) parts';
      Ok (r :: rs)
  end.

(** [parse_rules] on a tagger whose [rules] are still [None]: any
    exception of the loop ends in [sys.exit()]. *)
Definition parse_rules (rules_tsv : string) : result t :=
  match parse_lines 0 (Py.splitlines rules_tsv) with
  | Ok [] => Ok {| rules := None |}
  | Ok rs => Ok {| rules := Some rs |}
  | Raise _ => Raise SystemExit
  end.

Definition __init__ (rules_tsv : option string) : result t :=
  match rules_tsv with
  | None | Some EmptyString => Ok {| rules := None |}
  | Some text => parse_rules text
  end.

(** The test that makes [retag] pass over a rule:
    [rule['xt'] is not None and element not in rule['xt']]. *)
Definition skipped (r : rule) (element : string) : bool :=
  match xt r with
  | Some names => negb (Py.list_in element names)
  | None => false
  end.

(** The inner loop of [retag] for one rule, over the pairs that are still
    to be read; the state is [left_rules] and [new_tags_temp].  A pair
    whose key is found in the key of a [-] rule is passed over
    ([continue]); at the first pair whose key is found in the key of a [+]
    rule the loop is left ([break]); any other pair is appended. *)
Fixpoint scan (r : rule) (pairs : tags) (left_rules : list nat)
    (new_tags_temp : tags) : result (list nat * tags) :=
  match pairs with
  | [] => Ok (left_rules, new_tags_temp)
  | (tag_key, tag_value) :: pairs' =>
      if String.eqb (op r) "-" && Py.str_in tag_key (xack r) then
        left_rules' ← Py.list_remove (i r) left_rules;
        scan r pairs' left_rules' new_tags_temp
      else if String.eqb (op r) "+" && Py.str_in tag_key (xack r) then
        left_rules' ← Py.list_remove (i r) left_rules;
        Ok (left_rules', new_tags_temp)
      else
        scan r pairs' left_rules (new_tags_temp ++ [(tag_key, tag_value)])
  end.

(** The loop over the rules.  [new_tags] is not assigned inside this loop,
    so every rule reads the list [retag] was called with, and
    [new_tags_temp] is started afresh by every rule that is not passed
    over. *)
Fixpoint each_rule (rs : list rule) (element : string) (new_tags : tags)
    (left_rules : list nat) (new_tags_temp : tags)
  : result (list nat * tags) :=
  match rs with
  | [] => Ok (left_rules, new_tags_temp)
  | r :: rs' =>
      if skipped r element then
        left_rules' ← Py.list_remove (i r) left_rules;
        each_rule rs' element new_tags left_rules' new_tags_temp
      else
        st ← scan r new_tags left_rules [];
        each_rule rs' element new_tags st.1 st.2
  end.

(** The closing loop: the [+] rules left in [left_rules] are appended. *)
Fixpoint append_left (rs : list rule) (left_rules : list nat)
    (new_tags : tags) : result tags :=
  match left_rules with
  | [] => Ok new_tags
  | rule_index :: left_rules' =>
      r ← Py.getitem rs rule_index;
      if String.eqb (op r) "+"
      then append_left rs left_rules' (new_tags ++ [(xack r, xacv r)])
      else append_left rs left_rules' new_tags
  end.

Definition retag (self : t) (element : string) (de_facto_tags : tags)
  : result tags :=
  match rules self with
  | Some (r :: rs) =>
      let all := r :: rs in
      st ← each_rule all element de_facto_tags (seq 0 (length all)) [];
      append_left all st.1 st.2
  | _ => Ok de_facto_tags
  end.

End OSMElementTagger.

(** ** Streaming of a dump, second version *)

(** [osmrdf_xmldump2_ttl_v2] walks the elements that [etree.iterparse]
    hands over at their closing tag.  [events] is that sequence, each
    element as it is when it is handed over; the standard output is the
    list of the arguments of [print], observed when the run ends without
    an exception, and [count] is the counter of the blocks printed. *)

Module DumpV2.

Record state : Type := {
  xml_tags : list (string * string);
  xml_nds : list Z;
  xml_members : list (string * Z * option string);
  count : nat;
  stdout : list string
}.

Definition print (text : string) (st : state) : state :=
  {| xml_tags := xml_tags st; xml_nds := xml_nds st;
     xml_members := xml_members st; count := count st;
     stdout := stdout st ++ [text] |}.

(** The tags passed over by the first test of the loop. *)
Definition passed_over (tag : string) : bool :=
  Py.list_in tag ["osm"; "bounds"; "nd"; "member"; "tag"; "tagi"].

Section WithBuiltins.
Context `{Py.Builtins}.

(** [xml_nds = []; for item in _elnds: xml_nds.append(...)] when [_elnds]
    is not empty; the list is left as it is otherwise. *)
Definition refreshed {A : Type} (read : xml_element -> result A)
    (items : list xml_element) (current : list A) : result (list A) :=
  match items with
  | [] => Ok current
  | _ :: _ => Py.for_each read items
  end.

(** One pass of the loop, for the element [elem]. *)
Definition step (retagger : OSMElementTagger.t)
    (xml_filter : option OSMElementFilter.t)
    (tagcaster : OSMElementTagValueCast.t)
    (st : state) (elem : xml_element) : result state :=
  if passed_over (xml_tag elem) then Ok st
  else
    explicit ← Py.for_each OSMApiv06Xml.read_tag (findall elem "tag");
    tags1 ← OSMElementTagger.retag retagger (xml_tag elem)
              (xml_tags st ++ explicit);
    implicit ← Py.for_each OSMApiv06Xml.read_tag (findall elem "tagi");
    tags2 ← OSMElementTagger.retag retagger (xml_tag elem)
              (tags1 ++ implicit);
    nds ← refreshed OSMApiv06Xml.read_nd (findall elem "nd") (xml_nds st);
    members ← refreshed OSMApiv06Xml.read_member (findall elem "member")
                (xml_members st);
    el ← OSMElement.__init__ (xml_tag elem) (xml_attrib elem)
           (Some tags2) (Some nds) (Some members) xml_filter (Some tagcaster);
    let st' := {| xml_tags := []; xml_nds := []; xml_members := [];
                  count := count st; stdout := stdout st |} in
    can ← OSMElement.can_output el;
    if (can : bool) then
      ttl ← OSMElement.to_ttl el;
      Ok {| xml_tags := []; xml_nds := []; xml_members := [];
            count := S (count st);
            stdout := stdout st ++ [Py.join Py.LF ttl +:+ Py.LF] |}
    else Ok st'.

Fixpoint loop (retagger : OSMElementTagger.t)
    (xml_filter : option OSMElementFilter.t)
    (tagcaster : OSMElementTagValueCast.t)
    (st : state) (events : list xml_element) : result state :=
  match events with
  | [] => Ok st
  | elem :: events' =>
      st' ← step retagger xml_filter tagcaster st elem;
      loop retagger xml_filter tagcaster st' events'
  end.

Definition osmrdf_xmldump2_ttl_v2 (events : list xml_element)
    (xml_filter : option OSMElementFilter.t) (retagger : option string)
  : result (list string) :=
  let st := {| xml_tags := []; xml_nds := []; xml_members := []; count := 0;
               stdout := [Py.join Py.LF RDF_TURTLE_PREFIXES; ""] |} in
  retagger ← OSMElementTagger.__init__ retagger;
  let tagcaster := OSMElementTagValueCast.__init__ None in
  st' ← loop retagger xml_filter tagcaster st events;
  Ok (stdout st').

End WithBuiltins.

End DumpV2.

(** ** The request handler *)

Module Handler.

(** What [handle] reads of the answer of [requests.get]: the text, the
    lookup of a header (which the library does without regard to case)
    and the status code. *)
Record response : Type := {
  text : string;
  headers : string -> option string;
  status_code : Z
}.

(** The upstream API: the value of [OSM_API_DE_FACTO] and the answer of
    [requests.get] to a URL. *)
Class Upstream : Type := {
  OSM_API_DE_FACTO : string;
  requests_get : string -> response
}.

(** The body of an answer of [handle]: a text, or the dict of the 404
    answer with its ['error'] and ['examples']. *)
Inductive body : Type :=
| BodyText (text : string)
| BodyError (error : string) (examples : list string).

(** The dict returned by [handle]. *)
Record answer : Type := {
  statusCode : Z;
  content_type : string;
  answer_body : body
}.

Section WithEnvironment.
Context `{Py.Builtins} `{XmlReader} `{Upstream}.

Definition handle (path : string) : result answer :=
  if negb (Py.startswith "/node/" path || Py.startswith "/way/" path
           || Py.startswith "/relation/" path)
  then Ok {| statusCode := 404;
             content_type := "application/json";
             answer_body :=
               BodyError "Not found."
                 ["/node/1"; "/way/100"; "/relation/10000"] |}
  else
    let content := requests_get (OSM_API_DE_FACTO +:+ path) in
    let body_text := text content in
    content_type_ ← of_option KeyError (headers content "Content-Type");
    converted ←
      (if Z.eqb (status_code content) 200 then
         if Py.startswith "/node" path then
           body_text' ← osmrdf_node_xml2ttl body_text;
           Ok ("text/turtle", body_text')
         else if Py.startswith "/relation" path then
           body_text' ← osmrdf_relation_xml2ttl body_text;
           Ok ("text/turtle", body_text')
         else if Py.startswith "/way" path then
           body_text' ← osmrdf_way_xml2ttl body_text;
           Ok ("text/turtle", body_text')
         else Ok (content_type_, body_text)
       else Ok (content_type_, body_text));
    Ok {| statusCode := status_code content;
          content_type := converted.1;
          answer_body := BodyText converted.2 |}.

End WithEnvironment.

End Handler.

(** ** Vocabulary of the statements *)

(** [needle] occurs in [hay]: what [Py.str_in] decides. *)
Definition substring_of (needle hay : string) : Prop :=
  exists before after : string, hay = before +:+ needle +:+ after.

(** The test of the inner loop of [retag], [tag_key in rule['xack']]:
    the key of the pair is found in the key of the rule. *)
Definition key_found (r : OSMElementTagger.rule) (kv : string * string) : bool :=
  Py.str_in kv.1 (OSMElementTagger.xack r).

(** The reading under which a [-] rule removes the pairs whose key
    contains the key of the rule. *)
Definition remove_where_key_contains (r : OSMElementTagger.rule)
    (pairs : list (string * string)) : list (string * string) :=
  filter (fun kv => Py.str_in (OSMElementTagger.xack r) kv.1 = false) pairs.

(** The tagger that holds the single rule [r]. *)
Definition tagger_of (r : OSMElementTagger.rule) : OSMElementTagger.t :=
  {| OSMElementTagger.rules := Some [r] |}.

(** [parse_rules] numbers the rules by their line, from [k = 0]. *)
Definition indexed_from (k : nat) (rs : list OSMElementTagger.rule) : Prop :=
  map OSMElementTagger.i rs = seq k (length rs).

(** The three rules of the example in the docstring of [OSMElementTagger],
    each as the rule of line [index]. *)
Definition rule_add_is_in (index : nat) : OSMElementTagger.rule :=
  {| OSMElementTagger.i := index;
     OSMElementTagger.op := "+";
     OSMElementTagger.xt := Some ["way"];
     OSMElementTagger.xa := None;
     OSMElementTagger.xack := "is_in";
     OSMElementTagger.xacv := "BRA" |}.

Definition rule_remove_created_by (index : nat) : OSMElementTagger.rule :=
  {| OSMElementTagger.i := index;
     OSMElementTagger.op := "-";
     OSMElementTagger.xt := Some ["node"; "way"; "relation"];
     OSMElementTagger.xa := None;
     OSMElementTagger.xack := "created_by";
     OSMElementTagger.xacv := "*" |}.

Definition rule_add_maxspeed (index : nat) : OSMElementTagger.rule :=
  {| OSMElementTagger.i := index;
     OSMElementTagger.op := "+";
     OSMElementTagger.xt := Some ["way"; "relation"];
     OSMElementTagger.xa := None;
     OSMElementTagger.xack := "shacl:lessThanOrEquals:maxspeed";
     OSMElementTagger.xacv := "120" |}.

(** The three lines of that example, and its first line alone. *)
Definition docstring_rules : string :=
  "+" +:+ Py.TAB +:+ "<way>" +:+ Py.TAB +:+ "*" +:+ Py.TAB +:+ "is_in=BRA"
  +:+ Py.LF +:+
  "-" +:+ Py.TAB +:+ "<node>|<way>|<relation>" +:+ Py.TAB +:+ "*" +:+ Py.TAB
  +:+ "created_by=*"
  +:+ Py.LF +:+
  "+" +:+ Py.TAB +:+ "<way>|<relation>" +:+ Py.TAB +:+ "*" +:+ Py.TAB
  +:+ "shacl:lessThanOrEquals:maxspeed=120".

Definition docstring_rule_1 : string :=
  "+" +:+ Py.TAB +:+ "<way>" +:+ Py.TAB +:+ "*" +:+ Py.TAB +:+ "is_in=BRA".

(** Readers for the numerals of the examples: [int] on plain decimal
    numerals, [float] and [str] on the few floats listed. *)
Definition example_builtins : Py.Builtins :=
  {| Py.int_of_str := fun s => Z.of_int <$> NilZero.int_of_string s;
     Py.float_of_str := fun s =>
       if String.eqb s "0.0" then Some 0%float
       else if String.eqb s "1.0" then Some 1%float
       else if String.eqb s "2.0" then Some 2%float
       else if String.eqb s "10.0" then Some 10%float
       else None;
     Py.str_of_float := fun x =>
       if PrimFloat.eqb x 0%float then "0.0"
       else if PrimFloat.eqb x 1%float then "1.0"
       else if PrimFloat.eqb x 2%float then "2.0"
       else if PrimFloat.eqb x 10%float then "10.0"
       else "float" |}.

(** An XML reader that knows the one document [doc], whose root is
    [root]. *)
Definition reader_of (doc : string) (root : xml_element) : XmlReader :=
  {| fromstring := fun s =>
       if String.eqb s doc then Ok root else Raise ParseError |}.

(** The lists of an [OSMElementFilter], with [None] read as empty. *)
Definition allow_list (f : OSMElementFilter.t) : list string :=
  default [] (OSMElementFilter.xml_tags f).

Definition deny_list (f : OSMElementFilter.t) : list string :=
  default [] (OSMElementFilter.xml_tags_not f).

(** The lines of a rendering that start with [p]. *)
Definition lines_with (p : string) (lines : list string) : list string :=
  filter (fun l => Py.startswith p l = true) lines.

(** The two line starts told apart from the other lines of a rendering. *)
Definition meta_line (p : string) : Prop :=
  p = "    osmm:loc" \/ p = "    osmm:type".

(** The lines of the element of a document: what the three conversions
    compute before they assemble their output. *)
Definition element_block `{Py.Builtins} `{XmlReader} (data_xml : string)
  : result (list string) :=
  osmx ← OSMApiv06Xml.__init__ data_xml;
  osmnode ← OSMApiv06Xml.node osmx;
  to_ttl_of osmnode.

(** The text of a single-element conversion as specified: the prefix
    lines, an empty line, the lines of the element, an empty line. *)
Definition turtle_document (ttl : list string) : string :=
  Py.join Py.LF (RDF_TURTLE_PREFIXES ++ [""] ++ ttl ++ [""]).

(** A document with one relation, and its tree. *)
Definition relation_doc : string := "<osm><relation id='1'/></osm>".

Definition relation_root : xml_element :=
  XmlElement "osm" ∅ [XmlElement "relation" {[ "id" := "1" ]} []].

(** A document with one node that carries a tag, and its tree. *)
Definition cafe_doc : string :=
  "<osm><node id='1' lat='1.0' lon='2.0'><tag k='amenity' v='cafe'/></node></osm>".

Definition cafe_root : xml_element :=
  XmlElement "osm" ∅
    [XmlElement "node"
       (<["id" := "1"]> (<["lat" := "1.0"]> (<["lon" := "2.0"]> ∅)))
       [XmlElement "tag" (<["k" := "amenity"]> (<["v" := "cafe"]> ∅)) []]].

(** Attributes of the elements of the examples. *)
Definition meta_none : gmap string string := ∅.

Definition meta_id_1 : gmap string string := {[ "id" := "1" ]}.

Definition meta_equator : gmap string string :=
  <["id" := "1"]> (<["lat" := "0.0"]> (<["lon" := "10.0"]> ∅)).

Definition meta_cafe : gmap string string :=
  <["id" := "1"]> (<["lat" := "1.0"]> (<["lon" := "2.0"]> ∅)).

(** *** Vocabulary for [retag] on any list of rules *)

(** The pairs before the first one whose key is found in the key of
    [r]. *)
Fixpoint before_found (r : OSMElementTagger.rule)
    (pairs : list (string * string)) : list (string * string) :=
  match pairs with
  | [] => []
  | kv :: pairs' =>
      if key_found r kv then [] else kv :: before_found r pairs'
  end.

(** What the inner loop of [retag] builds for the rule [r] out of
    [pairs]. *)
Definition rebuilt (r : OSMElementTagger.rule)
    (pairs : list (string * string)) : list (string * string) :=
  if String.eqb (OSMElementTagger.op r) "-"
  then filter (fun kv => key_found r kv = false) pairs
  else if String.eqb (OSMElementTagger.op r) "+"
  then before_found r pairs
  else pairs.

(** The rule [r] is taken out of [left_rules] by its inner loop: it is a
    [-] or [+] rule and some key is found in its key. *)
Definition satisfied (r : OSMElementTagger.rule)
    (pairs : list (string * string)) : bool :=
  (String.eqb (OSMElementTagger.op r) "-"
   || String.eqb (OSMElementTagger.op r) "+")
  && existsb (key_found r) pairs.

(** The rules whose index is still in [left_rules] after the loop over
    the rules: those for the element that were not satisfied. *)
Definition left_over (rs : list OSMElementTagger.rule) (element : string)
    (pairs : list (string * string)) : list OSMElementTagger.rule :=
  filter (fun r => OSMElementTagger.skipped r element = false
                   /\ satisfied r pairs = false) rs.

(** The list built by the last rule that is for the element; the empty
    list when there is none. *)
Definition last_rebuilt (rs : list OSMElementTagger.rule) (element : string)
    (pairs : list (string * string)) (start : list (string * string))
  : list (string * string) :=
  fold_left (fun acc r =>
               if OSMElementTagger.skipped r element then acc
               else rebuilt r pairs) rs start.

(** The pairs appended by the closing loop: those of the [+] rules left
    over, in the order of the rules. *)
Definition appended (rs : list OSMElementTagger.rule) (element : string)
    (pairs : list (string * string)) : list (string * string) :=
  map (fun r => (OSMElementTagger.xack r, OSMElementTagger.xacv r))
    (filter (fun r => OSMElementTagger.op r = "+")
       (left_over rs element pairs)).

(** No [-] rule for the element finds more than one key. *)
Definition removes_at_most_one (rs : list OSMElementTagger.rule)
    (element : string) (pairs : list (string * string)) : Prop :=
  Forall (fun r => OSMElementTagger.skipped r element = false ->
                   OSMElementTagger.op r = "-" ->
                   length (filter (fun kv => key_found r kv = true) pairs)
                     <= 1) rs.

(** *** Vocabulary for elements and their rendering *)

(** The attribute [k] is missing or [conv] reads it. *)
Definition readable {A : Type} (conv : string -> option A)
    (meta : gmap string string) (k : string) : Prop :=
  match meta !! k with
  | Some v => is_Some (conv v)
  | None => True
  end.

(** The five attributes that [OSMElement.__init__] converts are missing
    or well written. *)
Definition numbers_readable `{Py.Builtins} (meta : gmap string string) : Prop :=
  readable Py.int_of_str meta "id"
  /\ readable Py.int_of_str meta "changeset"
  /\ readable Py.int_of_str meta "uid"
  /\ readable Py.float_of_str meta "lat"
  /\ readable Py.float_of_str meta "lon".

(** [l] ends with [suffix]. *)
Definition ends_with (suffix l : string) : Prop :=
  exists body : string, l = body +:+ suffix.

(** A line of the inside of a block: it starts with the indentation and
    a prefix of the vocabulary, and ends with a semicolon. *)
Definition statement_line (l : string) : Prop :=
  Py.startswith "    osm" l = true /\ ends_with " ;" l.

(** The line of a tag, and the line added by the caster. *)
Definition tag_line (kv : string * string) : string :=
  "    osmt:" +:+ osmrdf_tagkey_encode kv.1 +:+ " " +:+ Py.DQ +:+ kv.2
    +:+ Py.DQ +:+ " ;".

Definition wikidata_line (kv : string * string) : string :=
  "    osmx:wikidata wikidata:" +:+ kv.2 +:+ " ;".

(** The tags of the element of the examples: a key twice, and the key of
    the caster. *)
Definition example_tags : list (string * string) :=
  [("name", "a"); ("wikidata", "Q42"); ("name", "b")].

(** *** Vocabulary for the streaming of a dump *)

(** The lists of the state are empty, as they are between two elements. *)
Definition between_elements (st : DumpV2.state) : Prop :=
  DumpV2.xml_tags st = [] /\ DumpV2.xml_nds st = []
  /\ DumpV2.xml_members st = [].

(** The state at the start of a run before anything is printed. *)
Definition fresh_state : DumpV2.state :=
  {| DumpV2.xml_tags := []; DumpV2.xml_nds := []; DumpV2.xml_members := [];
     DumpV2.count := 0; DumpV2.stdout := [] |}.

(** What one element, taken alone, makes the loop print. *)
Definition printed_alone `{Py.Builtins} (retagger : OSMElementTagger.t)
    (xml_filter : option OSMElementFilter.t)
    (tagcaster : OSMElementTagValueCast.t) (elem : xml_element)
  : result (list string) :=
  st ← DumpV2.step retagger xml_filter tagcaster fresh_state elem;
  Ok (DumpV2.stdout st).

(** The two items printed before the loop. *)
Definition dump_header : list string :=
  [Py.join Py.LF RDF_TURTLE_PREFIXES; ""].

(** The names of the elements that a run can go through: those passed
    over and those with a prefix. *)
Definition known_names : list string :=
  ["osm"; "bounds"; "nd"; "member"; "tag"; "tagi"; "node"; "relation"; "way"].

(** A dump of the examples: a node and a way with a tag. *)
Definition dump_events : list xml_element :=
  [XmlElement "node" meta_cafe [];
   XmlElement "tag" (<["k" := "name"]> (<["v" := "x"]> ∅)) [];
   XmlElement "way" meta_id_1
     [XmlElement "tag" (<["k" := "name"]> (<["v" := "x"]> ∅)) []];
   XmlElement "osm" ∅ []].

(** A filter that lets the ways through. *)
Definition ways_only : OSMElementFilter.t :=
  OSMElementFilter.set_filter_xml_tags OSMElementFilter.__init__ ["way"].

(** *** Vocabulary for the request handler *)

(** The answer of [handle] to a path it does not serve. *)
Definition not_found : Handler.answer :=
  {| Handler.statusCode := 404;
     Handler.content_type := "application/json";
     Handler.answer_body :=
       Handler.BodyError "Not found."
         ["/node/1"; "/way/100"; "/relation/10000"] |}.

(** The path is one of those [handle] serves. *)
Definition served (path : string) : bool :=
  Py.startswith "/node/" path || Py.startswith "/way/" path
  || Py.startswith "/relation/" path.

(** An upstream that answers every request with [doc], the given status
    and the content type [application/xml]. *)
Definition upstream_of (doc : string) (status : Z) : Handler.Upstream :=
  {| Handler.OSM_API_DE_FACTO := "https://www.openstreetmap.org/api/0.6";
     Handler.requests_get := fun _ =>
       {| Handler.text := doc;
          Handler.headers := fun name =>
            if String.eqb name "Content-Type"
            then Some "application/xml" else None;
          Handler.status_code := status |} |}.

(** An upstream whose answers carry no header. *)
Definition upstream_without_headers (doc : string) : Handler.Upstream :=
  {| Handler.OSM_API_DE_FACTO := "https://www.openstreetmap.org/api/0.6";
     Handler.requests_get := fun _ =>
       {| Handler.text := doc;
          Handler.headers := fun _ => None;
          Handler.status_code := 200 |} |}.

(** * Properties *)

(** ** Tag key encoder *)

Lemma replace_char_cons (a : ascii) (new : string) (c : ascii) (s : string) :
  Py.replace (String a "") new (String c s) =
  if Ascii.eqb a c then new +:+ Py.replace (String a "") new s
  else String c (Py.replace (String a "") new s).
Proof.
  unfold Py.replace. simpl.
  destruct (Ascii.eqb a c); reflexivity.
Qed.

Lemma osmrdf_tagkey_encode_cons (c : ascii) (s : string) :
  osmrdf_tagkey_encode (String c s) =
  (if Ascii.eqb c " " then "%20" else String c "") +:+ osmrdf_tagkey_encode s.
Proof.
  unfold osmrdf_tagkey_encode. rewrite replace_char_cons.
  rewrite (Ascii.eqb_sym " "%char c).
  destruct (Ascii.eqb c " "); reflexivity.
Qed.

Lemma osmrdf_tagkey_encode_app (a b : string) :
  osmrdf_tagkey_encode (a +:+ b) =
  osmrdf_tagkey_encode a +:+ osmrdf_tagkey_encode b.
Proof.
  induction a as [|c a IH]; [reflexivity|].
  change (String c a +:+ b) with (String c (a +:+ b)).
  rewrite !osmrdf_tagkey_encode_cons, IH.
  destruct (Ascii.eqb c " "); reflexivity.
Qed.

Lemma osmrdf_tagkey_encode_idem (x : string) :
  osmrdf_tagkey_encode (osmrdf_tagkey_encode x) = osmrdf_tagkey_encode x.
Proof.
  induction x as [|c x IH]; [reflexivity|].
  rewrite osmrdf_tagkey_encode_cons, osmrdf_tagkey_encode_app, IH.
  f_equal.
  destruct (Ascii.eqb c " ") eqn:E; [reflexivity|].
  rewrite osmrdf_tagkey_encode_cons, E. reflexivity.
Qed.

(** C8. [encode] rewrites a string character by character: a space becomes
    [%20] and any other character (a colon included) is copied as it is;
    [encode " a b "] is ["%20a%20b%20"]; and encoding twice is the same as
    encoding once, for every string. *)
Theorem osmrdf_tagkey_encode_spec :
  osmrdf_tagkey_encode "" = "" /\
  (forall (c : ascii) (s : string),
      osmrdf_tagkey_encode (String c s) =
      (if Ascii.eqb c " " then "%20" else String c "")
        +:+ osmrdf_tagkey_encode s) /\
  (forall s : string,
      osmrdf_tagkey_encode (String ":" s) = String ":" (osmrdf_tagkey_encode s)) /\
  osmrdf_tagkey_encode " a b " = "%20a%20b%20" /\
  (forall x : string,
      osmrdf_tagkey_encode (osmrdf_tagkey_encode x) = osmrdf_tagkey_encode x).
Proof.
  split; [reflexivity|].
  split; [exact osmrdf_tagkey_encode_cons|].
  split; [intros s; rewrite osmrdf_tagkey_encode_cons; reflexivity|].
  split; [reflexivity|].
  exact osmrdf_tagkey_encode_idem.
Qed.

(** ** Python built-ins *)

Lemma append_cons (c : ascii) (s t : string) :
  String c s +:+ t = String c (s +:+ t).
Proof. reflexivity. Qed.

Lemma append_nil (t : string) : "" +:+ t = t.
Proof. reflexivity. Qed.

Lemma append_assoc (a b c : string) : (a +:+ b) +:+ c = a +:+ (b +:+ c).
Proof.
  induction a as [|x a IH]; [reflexivity|].
  by rewrite !append_cons, IH.
Qed.

Lemma startswith_spec (p s : string) :
  Py.startswith p s = true <-> exists after, s = p +:+ after.
Proof.
  revert s. induction p as [|a p IH]; intros s.
  - split; [intros _; by exists s | reflexivity].
  - destruct s as [|b s]; simpl.
    + split; [discriminate | intros [after Ha]; discriminate].
    + destruct (Ascii.eqb a b) eqn:E.
      * apply Ascii.eqb_eq in E as ->. rewrite IH.
        split; intros [after Ha]; exists after.
        -- by rewrite append_cons, Ha.
        -- rewrite append_cons in Ha. by injection Ha.
      * apply Ascii.eqb_neq in E.
        split; [discriminate|]. intros [after Ha].
        rewrite append_cons in Ha. congruence.
Qed.

Lemma str_in_spec (needle hay : string) :
  Py.str_in needle hay = true <-> substring_of needle hay.
Proof.
  unfold substring_of.
  induction hay as [|c hay IH]; simpl.
  - destruct (Py.startswith needle "") eqn:E.
    + apply startswith_spec in E as [after Ha].
      split; [intros _; by exists "", after | reflexivity].
    + split; [discriminate|]. intros (before & after & Ha).
      destruct before; [|discriminate]. rewrite append_nil in Ha.
      assert (Py.startswith needle "" = true)
        by (apply startswith_spec; by exists after).
      congruence.
  - destruct (Py.startswith needle (String c hay)) eqn:E.
    + apply startswith_spec in E as [after Ha].
      split; [intros _; by exists "", after | reflexivity].
    + rewrite IH. split.
      * intros (before & after & Ha). exists (String c before), after.
        by rewrite append_cons, Ha.
      * intros (before & after & Ha). destruct before as [|c' before].
        -- rewrite append_nil in Ha.
           assert (Py.startswith needle (String c hay) = true)
             by (apply startswith_spec; by exists after).
           congruence.
        -- rewrite append_cons in Ha. injection Ha as _ Ha.
           by exists before, after.
Qed.

Lemma list_in_spec (x : string) (l : list string) :
  Py.list_in x l = true <-> x ∈ l.
Proof.
  unfold Py.list_in. rewrite existsb_exists, list_elem_of_In.
  split.
  - intros (y & Hy & E). apply String.eqb_eq in E. by subst.
  - intros Hx. exists x. split; [done | apply String.eqb_refl].
Qed.

(** ** Retagging *)

Section Retag.
Import OSMElementTagger.

Lemma scan_none_found (r : rule) (pairs : tags) (left_rules : list nat)
    (new_tags_temp : tags) :
  Forall (fun kv => key_found r kv = false) pairs ->
  scan r pairs left_rules new_tags_temp
  = Ok (left_rules, new_tags_temp ++ pairs).
Proof.
  intros Hnone. revert new_tags_temp.
  induction Hnone as [|[k v] pairs Hk _ IH]; intros new_tags_temp; simpl.
  - by rewrite app_nil_r.
  - unfold key_found in Hk; simpl in Hk. rewrite Hk, !andb_false_r.
    rewrite IH, <- app_assoc. reflexivity.
Qed.

Lemma filter_none_found (r : rule) (pairs : tags) :
  Forall (fun kv => key_found r kv = false) pairs ->
  filter (fun kv => key_found r kv = false) pairs = pairs.
Proof.
  induction 1 as [|kv pairs Hk _ IH]; [reflexivity|].
  rewrite filter_cons_True by exact Hk. by rewrite IH.
Qed.

Lemma found_count_zero (r : rule) (pairs : tags) :
  length (filter (fun kv => key_found r kv = true) pairs) = 0 ->
  Forall (fun kv => key_found r kv = false) pairs.
Proof.
  induction pairs as [|kv pairs IH]; [constructor|].
  destruct (key_found r kv) eqn:Hk.
  - rewrite filter_cons_True by exact Hk. discriminate.
  - rewrite filter_cons_False by (rewrite Hk; discriminate).
    intros Hlen. constructor; [exact Hk | exact (IH Hlen)].
Qed.

(** A [-] rule over a list with at most one pair whose key is found. *)
Lemma scan_remove_at_most_one (r : rule) (pairs : tags)
    (left_rules left_rules' : list nat) (new_tags_temp : tags) :
  op r = "-" ->
  length (filter (fun kv => key_found r kv = true) pairs) <= 1 ->
  Py.list_remove (i r) left_rules = Ok left_rules' ->
  scan r pairs left_rules new_tags_temp
  = Ok (if existsb (key_found r) pairs then left_rules' else left_rules,
        new_tags_temp ++ filter (fun kv => key_found r kv = false) pairs).
Proof.
  intros Hop Hone Hrm. revert new_tags_temp Hone.
  induction pairs as [|[k v] pairs IH]; intros new_tags_temp Hone.
  - simpl. by rewrite app_nil_r.
  - assert (Hkey : key_found r (k, v) = Py.str_in k (xack r)) by reflexivity.
    destruct (key_found r (k, v)) eqn:Hk.
    + rewrite filter_cons_True in Hone by exact Hk. simpl in Hone.
      assert (Hnone : Forall (fun kv => key_found r kv = false) pairs)
        by (apply found_count_zero; lia).
      rewrite filter_cons_False by (rewrite Hk; discriminate).
      rewrite filter_none_found by exact Hnone.
      cbn [scan existsb]. rewrite Hop, <- Hkey, Hk. cbn.
      rewrite Hrm. cbn.
      apply scan_none_found, Hnone.
    + rewrite filter_cons_False in Hone by (rewrite Hk; discriminate).
      rewrite filter_cons_True by exact Hk.
      cbn [scan existsb]. rewrite <- Hkey, Hk, !andb_false_r. cbn [orb].
      rewrite IH by exact Hone.
      rewrite <- app_assoc. reflexivity.
Qed.

Lemma skipped_spec (r : rule) (element : string) :
  skipped r element = true
  <-> exists names, xt r = Some names /\ element ∉ names.
Proof.
  unfold skipped. destruct (xt r) as [names|].
  - rewrite negb_true_iff, <- not_true_iff_false, list_in_spec.
    split; [intros Hn; by exists names | intros (? & [= <-] & Hn); done].
  - split; [discriminate | intros (? & ? & _); discriminate].
Qed.

Lemma each_rule_single (r : rule) (element : string) (new_tags : tags) :
  skipped r element = false ->
  each_rule [r] element new_tags [0] [] = scan r new_tags [0] [].
Proof.
  intros Hs. simpl. rewrite Hs.
  destruct (scan r new_tags [0] []) as [[left_rules temp]|e]; reflexivity.
Qed.

Lemma list_remove_head (x : nat) (l : list nat) :
  Py.list_remove x (x :: l) = Ok l.
Proof. simpl. by rewrite Nat.eqb_refl. Qed.

(** A [-] rule alone in the tagger, for an element it is for, over a list
    with at most one pair whose key is found in the key of the rule. *)
Lemma retag_remove_at_most_one (r : rule) (element : string)
    (de_facto_tags : tags) :
  op r = "-" -> i r = 0 -> skipped r element = false ->
  length (filter (fun kv => key_found r kv = true) de_facto_tags) <= 1 ->
  retag (tagger_of r) element de_facto_tags
  = Ok (filter (fun kv => key_found r kv = false) de_facto_tags).
Proof.
  intros Hop Hi Hs Hone. unfold retag, tagger_of. cbn [rules length seq].
  rewrite each_rule_single by exact Hs.
  rewrite (scan_remove_at_most_one r de_facto_tags [0] [] []); try done.
  - cbn. destruct (existsb (key_found r) de_facto_tags); cbn; [done|].
    by rewrite Hop.
  - rewrite Hi. apply list_remove_head.
Qed.

(** With two such pairs the second [left_rules.remove] fails. *)
Lemma scan_remove_twice (r : rule) (pairs : tags) (new_tags_temp : tags) :
  op r = "-" ->
  2 <= length (filter (fun kv => key_found r kv = true) pairs) ->
  scan r pairs [i r] new_tags_temp = Raise ValueError.
Proof.
  intros Hop. revert new_tags_temp.
  induction pairs as [|[k v] pairs IH]; intros new_tags_temp Htwo.
  - simpl in Htwo. lia.
  - assert (Hkey : key_found r (k, v) = Py.str_in k (xack r)) by reflexivity.
    destruct (key_found r (k, v)) eqn:Hk.
    + rewrite filter_cons_True in Htwo by exact Hk. cbn [length] in Htwo.
      cbn [scan]. rewrite Hop, <- Hkey. cbn. rewrite Nat.eqb_refl. cbn.
      clear IH. revert new_tags_temp.
      induction pairs as [|[k' v'] pairs IH]; intros new_tags_temp.
      * simpl in Htwo. lia.
      * assert (Hkey' : key_found r (k', v') = Py.str_in k' (xack r))
          by reflexivity.
        destruct (key_found r (k', v')) eqn:Hk'.
        -- cbn [scan]. rewrite Hop, <- Hkey'. reflexivity.
        -- rewrite filter_cons_False in Htwo by (rewrite Hk'; discriminate).
           cbn [scan]. rewrite <- Hkey', !andb_false_r. apply IH, Htwo.
    + rewrite filter_cons_False in Htwo by (rewrite Hk; discriminate).
      cbn [scan]. rewrite <- Hkey, !andb_false_r. apply IH, Htwo.
Qed.

Lemma retag_remove_twice_raises (r : rule) (element : string)
    (de_facto_tags : tags) :
  op r = "-" -> i r = 0 -> skipped r element = false ->
  2 <= length (filter (fun kv => key_found r kv = true) de_facto_tags) ->
  retag (tagger_of r) element de_facto_tags = Raise ValueError.
Proof.
  intros Hop Hi Hs Htwo. unfold retag, tagger_of. cbn [rules length seq].
  rewrite each_rule_single by exact Hs.
  rewrite <- Hi at 1. by rewrite scan_remove_twice.
Qed.

(** A [+] rule: the loop is left at the first pair whose key is found, and
    that pair and the pairs after it are not appended. *)
Lemma scan_add_found (r : rule) (before after : tags) (k v : string)
    (left_rules : list nat) (new_tags_temp : tags) :
  op r = "+" ->
  Forall (fun kv => key_found r kv = false) before ->
  key_found r (k, v) = true ->
  scan r (before ++ (k, v) :: after) left_rules new_tags_temp
  = left_rules' ← Py.list_remove (i r) left_rules;
    Ok (left_rules', new_tags_temp ++ before).
Proof.
  intros Hop Hbefore Hk. revert new_tags_temp.
  induction Hbefore as [|[k0 v0] before Hk0 _ IH]; intros new_tags_temp.
  - cbn [app scan]. unfold key_found in Hk; cbn in Hk.
    rewrite Hop, Hk. cbn. by rewrite app_nil_r.
  - cbn [app scan]. unfold key_found in Hk0; cbn in Hk0.
    rewrite Hk0, !andb_false_r. rewrite IH, <- app_assoc. reflexivity.
Qed.

(** A [+] rule alone in the tagger, for an element it is for, over a list
    in which no key is found in the key of the rule: the pair of the rule
    is appended once. *)
Lemma retag_add_none_found (r : rule) (element : string)
    (de_facto_tags : tags) :
  op r = "+" -> i r = 0 -> skipped r element = false ->
  Forall (fun kv => key_found r kv = false) de_facto_tags ->
  retag (tagger_of r) element de_facto_tags
  = Ok (de_facto_tags ++ [(xack r, xacv r)]).
Proof.
  intros Hop Hi Hs Hnone. unfold retag, tagger_of. cbn [rules length seq].
  rewrite each_rule_single by exact Hs.
  rewrite scan_none_found by exact Hnone.
  cbn. by rewrite Hop.
Qed.

Lemma list_remove_seq (k n : nat) :
  Py.list_remove k (seq k (S n)) = Ok (seq (S k) n).
Proof. apply list_remove_head. Qed.

Lemma indexed_from_cons (k : nat) (r : rule) (rs : list rule) :
  indexed_from k (r :: rs) -> i r = k /\ indexed_from (S k) rs.
Proof.
  unfold indexed_from. cbn [map length seq]. intros [= Hi Hix]. done.
Qed.

(** When every rule is passed over, [new_tags_temp] is never written. *)
Lemma each_rule_all_skipped (rs : list rule) (k : nat) (element : string)
    (new_tags new_tags_temp : tags) :
  indexed_from k rs ->
  Forall (fun r => skipped r element = true) rs ->
  each_rule rs element new_tags (seq k (length rs)) new_tags_temp
  = Ok ([], new_tags_temp).
Proof.
  intros Hix Hall. revert k Hix.
  induction Hall as [|r rs Hr _ IH]; intros k Hix; [reflexivity|].
  apply indexed_from_cons in Hix as [Hi Hix].
  cbn [each_rule length]. rewrite Hr, Hi, list_remove_seq. cbn.
  by apply IH.
Qed.

(** C1. A [-] rule, alone in the tagger and for an element it is for,
    removes exactly the pairs whose tag key is found in the key of the rule
    as a substring (the key of the tag is looked for in the key of the
    rule, not compared with it), and keeps the other pairs in their order,
    when at most one pair has such a key; for an element the rule is not
    for, the rule is passed over: it reads no pair and leaves the list under
    construction as it is. *)
Theorem retag_remove_tag_key_in_rule_key (r : rule) (element : string)
    (de_facto_tags : tags) :
  op r = "-" -> i r = 0 ->
  (skipped r element = false ->
   length (filter (fun kv => Py.str_in kv.1 (xack r) = true) de_facto_tags)
     <= 1 ->
   retag (tagger_of r) element de_facto_tags
   = Ok (filter (fun kv => Py.str_in kv.1 (xack r) = false) de_facto_tags))
  /\ (skipped r element = true ->
      forall (rs : list rule) (left_rules : list nat) (new_tags_temp : tags),
        each_rule (r :: rs) element de_facto_tags left_rules new_tags_temp
        = left_rules' ← Py.list_remove (i r) left_rules;
          each_rule rs element de_facto_tags left_rules' new_tags_temp).
Proof.
  intros Hop Hi. split.
  - intros Hs Hone. by apply retag_remove_at_most_one.
  - intros Hs rs left_rules new_tags_temp. cbn [each_rule]. by rewrite Hs.
Qed.

Lemma retag_remove_tag_key_in_rule_key_witness :
  retag (tagger_of (rule_remove_created_by 0)) "way"
    [("name", "x"); ("created_by", "JOSM"); ("highway", "road")]
  = Ok [("name", "x"); ("highway", "road")]
  /\ each_rule [rule_remove_created_by 0] "changeset" [("name", "x")] [0] []
     = Ok ([], []).
Proof.
  split.
  - refine (proj1 (retag_remove_tag_key_in_rule_key (rule_remove_created_by 0)
                     "way"
                     [("name", "x"); ("created_by", "JOSM"); ("highway", "road")]
                     eq_refl eq_refl) _ _);
      [reflexivity | vm_compute; lia].
  - pose proof (retag_remove_tag_key_in_rule_key (rule_remove_created_by 0)
                  "changeset" [("name", "x")] eq_refl eq_refl) as [_ Hskip].
    rewrite (Hskip eq_refl [] [0] []). reflexivity.
Defined.

(** The claim as it is stated, with the key of the rule looked for in the
    key of the tag, fails on a pair whose key contains the key of the rule
    (it is kept) and on a pair whose key is a part of the key of the rule
    (it is removed). *)
Lemma retag_remove_rule_key_in_tag_key_fails :
  op (rule_remove_created_by 0) = "-"
  /\ skipped (rule_remove_created_by 0) "way" = false
  /\ retag (tagger_of (rule_remove_created_by 0)) "way"
       [("created_by_editor", "JOSM"); ("by", "bus")]
     = Ok [("created_by_editor", "JOSM")]
  /\ remove_where_key_contains (rule_remove_created_by 0)
       [("created_by_editor", "JOSM"); ("by", "bus")]
     = [("by", "bus")]
  /\ retag (tagger_of (rule_remove_created_by 0)) "way"
       [("created_by_editor", "JOSM"); ("by", "bus")]
     <> Ok (remove_where_key_contains (rule_remove_created_by 0)
             [("created_by_editor", "JOSM"); ("by", "bus")]).
Proof.
  repeat split; try reflexivity. vm_compute. discriminate.
Qed.

(** When no rule of the tagger is for the element, [retag] returns the
    empty list whatever the input. *)
Lemma retag_all_skipped (r : rule) (rs : list rule)
    (element : string) (de_facto_tags : tags) :
  indexed_from 0 (r :: rs) ->
  Forall (fun r => skipped r element = true) (r :: rs) ->
  retag {| rules := Some (r :: rs) |} element de_facto_tags = Ok [].
Proof.
  intros Hix Hall. unfold retag. cbn [rules].
  by rewrite each_rule_all_skipped.
Qed.

(** C2. A [+] rule alone in the tagger: for an element it is for, and an
    input in which no key is found in the key of the rule, [retag] returns
    the input followed by the pair of the rule, once; for an element it is
    not for, [retag] returns the empty list: the input tags are not handed
    back. *)
Theorem retag_add_absent_or_skipped (r : rule) (element : string)
    (de_facto_tags : tags) :
  op r = "+" -> i r = 0 ->
  (skipped r element = false ->
   Forall (fun kv => Py.str_in kv.1 (xack r) = false) de_facto_tags ->
   retag (tagger_of r) element de_facto_tags
   = Ok (de_facto_tags ++ [(xack r, xacv r)]))
  /\ (skipped r element = true ->
      retag (tagger_of r) element de_facto_tags = Ok []).
Proof.
  intros Hop Hi. split.
  - intros Hs Hnone. by apply retag_add_none_found.
  - intros Hs. apply retag_all_skipped.
    + unfold indexed_from. cbn. by rewrite Hi.
    + by constructor.
Qed.

Lemma retag_add_absent_or_skipped_witness :
  retag (tagger_of (rule_add_is_in 0)) "way" [("name", "x")]
  = Ok [("name", "x"); ("is_in", "BRA")]
  /\ retag (tagger_of (rule_add_is_in 0)) "node" [("name", "x")] = Ok [].
Proof.
  split.
  - refine (proj1 (retag_add_absent_or_skipped (rule_add_is_in 0) "way"
                     [("name", "x")] eq_refl eq_refl) _ _);
      [reflexivity | repeat constructor].
  - refine (proj2 (retag_add_absent_or_skipped (rule_add_is_in 0) "node"
                     [("name", "x")] eq_refl eq_refl) _).
    reflexivity.
Defined.

(** C3. When the key of a pair is found in the key of a [+] rule, alone in
    the tagger and for the element, [retag] returns only the pairs before
    the first such pair: that pair is dropped with every pair after it, and
    the value of the rule appears nowhere. *)
Theorem retag_add_found_keeps_only_pairs_before (r : rule) (element : string)
    (before after : tags) (k v : string) :
  op r = "+" -> i r = 0 -> skipped r element = false ->
  Forall (fun kv => Py.str_in kv.1 (xack r) = false) before ->
  Py.str_in k (xack r) = true ->
  retag (tagger_of r) element (before ++ (k, v) :: after) = Ok before.
Proof.
  intros Hop Hi Hs Hbefore Hk. unfold retag, tagger_of. cbn [rules length seq].
  rewrite each_rule_single by exact Hs.
  rewrite scan_add_found by done.
  rewrite Hi, list_remove_head. reflexivity.
Qed.

Lemma retag_add_found_keeps_only_pairs_before_witness :
  retag (tagger_of (rule_add_is_in 0)) "way"
    ([("name", "x")] ++ ("is_in", "ARG") :: [("highway", "road")])
  = Ok [("name", "x")].
Proof.
  apply (retag_add_found_keeps_only_pairs_before (rule_add_is_in 0) "way"
           [("name", "x")] [("highway", "road")] "is_in" "ARG");
    try reflexivity.
  repeat constructor.
Defined.

(** Every rule reads the list [retag] was called with: the second rule of
    a tagger does not see what the first one removed, and the list it
    builds replaces the list of the first. *)
Example retag_second_rule_reads_input :
  retag {| rules := Some [rule_remove_created_by 0;
                          {| i := 1; op := "-"; xt := None; xa := None;
                             xack := "source"; xacv := "" |}] |}
    "way" [("created_by", "JOSM"); ("source", "survey"); ("name", "x")]
  = Ok [("created_by", "JOSM"); ("name", "x")].
Proof. reflexivity. Qed.

(** Rules read by [parse_rules] carry the index of their line. *)
Lemma parse_lines_indexed (parts : list string) (k : nat) (rs : list rule) :
  parse_lines k parts = Ok rs -> indexed_from k rs.
Proof.
  revert k rs. induction parts as [|text parts IH]; intros k rs Hrs.
  - injection Hrs as <-. reflexivity.
  - cbn [parse_lines] in Hrs.
    destruct (parse_line k text) as [r|e] eqn:Hr; [|discriminate].
    cbn [mbind result_bind] in Hrs.
    destruct (parse_lines (S k) parts) as [rs'|e] eqn:Hrs'; [|discriminate].
    injection Hrs as <-. apply IH in Hrs'.
    unfold indexed_from in *. cbn [map length seq]. f_equal; [|exact Hrs'].
    unfold parse_line in Hr.
    repeat match type of Hr with
           | mbind _ ?m = Ok _ =>
               destruct m; cbn [mbind result_bind] in Hr; [|discriminate]
           end.
    by injection Hr as <-.
Qed.

(** The example of the docstring, read and applied. *)
Example parse_rules_docstring :
  parse_rules docstring_rules
  = Ok {| rules := Some [rule_add_is_in 0; rule_remove_created_by 1;
                         rule_add_maxspeed 2] |}
  /\ __init__ (Some docstring_rule_1) = Ok (tagger_of (rule_add_is_in 0))
  /\ parse_rules "is_in=BRA" = Raise SystemExit.
Proof. repeat split; vm_compute; reflexivity. Qed.

(** With the three rules on a way, [created_by] is still there: the third
    rule reads the input again and its list replaces the list of the
    second. *)
Example retag_docstring_rules :
  (tagger ← parse_rules docstring_rules;
   retag tagger "way" [("highway", "primary"); ("created_by", "JOSM")])
  = Ok [("highway", "primary"); ("created_by", "JOSM"); ("is_in", "BRA");
        ("shacl:lessThanOrEquals:maxspeed", "120")].
Proof. vm_compute. reflexivity. Qed.

End Retag.

(** ** Element filter *)

Section Filter.
Import OSMElementFilter.

Lemma truthy_list_default {A : Type} (o : option (list A)) :
  Py.truthy_list o = false <-> default [] o = [].
Proof. destruct o as [[|x l]|]; simpl; split; congruence. Qed.

Lemma tag_in_default (tag : string) (o : option (list string)) :
  tag_in tag o = true <-> tag ∈ default [] o.
Proof.
  destruct o as [l|]; simpl.
  - apply list_in_spec.
  - split; [discriminate | intros Hin; by apply elem_of_nil in Hin].
Qed.

Lemma can_tag_true_iff (f : t) (tag : string) :
  can_tag f tag = true
  <-> (allow_list f = [] \/ tag ∈ allow_list f)
      /\ (deny_list f = [] \/ tag ∉ deny_list f).
Proof.
  unfold can_tag, allow_list, deny_list.
  rewrite <- !truthy_list_default, <- !tag_in_default.
  destruct (Py.truthy_list (xml_tags f)), (Py.truthy_list (xml_tags_not f)),
    (tag_in tag (xml_tags f)), (tag_in tag (xml_tags_not f));
    simpl; intuition congruence.
Qed.

(** C9. [can_tag] answers true when neither list was set; in general it
    answers true exactly when the allow-list is empty or holds the kind,
    and the deny-list is empty or does not hold the kind; and it answers
    false for a kind of the deny-list, whatever the allow-list. *)
Theorem can_tag_allow_deny (f : t) (tag : string) :
  (xml_tags f = None -> xml_tags_not f = None -> can_tag f tag = true)
  /\ (can_tag f tag = true
      <-> (allow_list f = [] \/ tag ∈ allow_list f)
          /\ (deny_list f = [] \/ tag ∉ deny_list f))
  /\ (tag ∈ deny_list f -> can_tag f tag = false).
Proof.
  split; [|split].
  - intros Ha Hd. unfold can_tag. by rewrite Ha, Hd.
  - apply can_tag_true_iff.
  - intros Hin. apply not_true_iff_false. rewrite can_tag_true_iff.
    intros [_ [Hnil|Hout]]; [|done].
    rewrite Hnil in Hin. by apply elem_of_nil in Hin.
Qed.

Lemma can_tag_allow_deny_witness :
  can_tag __init__ "node" = true
  /\ can_tag (set_filter_xml_tags_not
                (set_filter_xml_tags __init__ ["node"; "way"]) ["node"])
       "node" = false.
Proof.
  split.
  - apply (proj1 (can_tag_allow_deny __init__ "node")); reflexivity.
  - apply (proj2 (proj2 (can_tag_allow_deny _ "node"))).
    apply list_elem_of_In. simpl. by left.
Defined.

End Filter.

(** ** Elements and their rendering *)

Section Element.
Context `{Py.Builtins}.
Import OSMElement.

Lemma bind_ok_inv {A B : Type} (m : result A) (k : A -> result B) (b : B) :
  (x ← m; k x) = Ok b -> exists a, m = Ok a /\ k a = Ok b.
Proof. destruct m as [a|e]; [by exists a | discriminate]. Qed.

(** What [__init__] stores, read off an element it has returned. *)
Lemma init_ok_fields (tag : string) (meta : gmap string string)
    (xml_tags : option (list (string * string))) (xml_nds : option (list Z))
    (xml_members : option (list (string * Z * option string)))
    (xml_filter : option OSMElementFilter.t)
    (tagcaster : option OSMElementTagValueCast.t) (el : t) :
  __init__ tag meta xml_tags xml_nds xml_members xml_filter tagcaster = Ok el ->
  exists prefix,
    OSM_ELEMENT_PREFIX !! tag = Some prefix
    /\ parsed Py.int meta "id" = Ok (id el)
    /\ parsed Py.float meta "lat" = Ok (lat el)
    /\ parsed Py.float meta "lon" = Ok (lon el)
    /\ _basegroup el = prefix +:+ Py.str_opt_int (id el)
    /\ _tag el = tag
    /\ _el_osm_tags el = xml_tags
    /\ _el_osm_nds el = xml_nds
    /\ _el_osm_members el = xml_members
    /\ _xml_filter el = xml_filter
    /\ _tagcaster el = tagcaster.
Proof.
  unfold __init__. intros Hinit.
  apply bind_ok_inv in Hinit as (id_ & Hid & Hinit).
  apply bind_ok_inv in Hinit as (cs_ & Hcs & Hinit).
  apply bind_ok_inv in Hinit as (uid_ & Huid & Hinit).
  apply bind_ok_inv in Hinit as (lat_ & Hlat & Hinit).
  apply bind_ok_inv in Hinit as (lon_ & Hlon & Hinit).
  apply bind_ok_inv in Hinit as (prefix & Hprefix & Hinit).
  injection Hinit as <-. exists prefix. cbn.
  unfold Py.dict_get in Hprefix.
  destruct (OSM_ELEMENT_PREFIX !! tag) as [p|]; [|discriminate].
  injection Hprefix as ->. done.
Qed.

Lemma parsed_absent {A : Type} (conv : string -> result A)
    (meta : gmap string string) (k : string) :
  meta !! k = None -> parsed conv meta k = Ok None.
Proof. unfold parsed. by intros ->. Qed.

(** C10. An element built without a filter (the default [None] of
    [xml_filter]) is accepted by the constructor, and [can_output] on it
    raises [AttributeError]: it does not answer true.  Built with a filter
    on which no list was set, the same element is let through. *)
Theorem can_output_without_filter_raises (tag : string)
    (meta : gmap string string)
    (xml_tags : option (list (string * string))) (xml_nds : option (list Z))
    (xml_members : option (list (string * Z * option string)))
    (tagcaster : option OSMElementTagValueCast.t) (el : t) :
  __init__ tag meta xml_tags xml_nds xml_members None tagcaster = Ok el ->
  can_output el = Raise AttributeError
  /\ exists el',
      __init__ tag meta xml_tags xml_nds xml_members
        (Some OSMElementFilter.__init__) tagcaster = Ok el'
      /\ can_output el' = Ok true.
Proof.
  intros Hinit. split.
  - apply init_ok_fields in Hinit as (_ & _ & _ & _ & _ & _ & _ & _ & _ & _ & Hf & _).
    unfold can_output. by rewrite Hf.
  - unfold __init__ in *.
    apply bind_ok_inv in Hinit as (id_ & -> & Hinit).
    apply bind_ok_inv in Hinit as (cs_ & -> & Hinit).
    apply bind_ok_inv in Hinit as (uid_ & -> & Hinit).
    apply bind_ok_inv in Hinit as (lat_ & -> & Hinit).
    apply bind_ok_inv in Hinit as (lon_ & -> & Hinit).
    apply bind_ok_inv in Hinit as (prefix & -> & Hinit).
    eexists. split; [reflexivity|]. reflexivity.
Qed.

Lemma for_each_ttl_member_ok (ms : list (string * Z * option string)) :
  Forall (fun m => is_Some (OSM_ELEMENT_PREFIX !! m.1.1)) ms ->
  exists parts, Py.for_each ttl_member ms = Ok parts.
Proof.
  induction 1 as [|[[_type _ref] _role] ms [prefix Hp] _ [parts IH]].
  - by exists [].
  - cbn in Hp. eexists. cbn. unfold Py.dict_get. rewrite Hp. cbn.
    rewrite IH. reflexivity.
Qed.

Lemma ttl_members_ok (el : t) :
  Forall (fun m => is_Some (OSM_ELEMENT_PREFIX !! m.1.1))
    (default [] (_el_osm_members el)) ->
  exists lines, ttl_members el = Ok lines.
Proof.
  unfold ttl_members. destruct (_el_osm_members el) as [[|m ms]|];
    intros Hall; simpl in Hall.
  - by exists [].
  - apply for_each_ttl_member_ok in Hall as [parts ->]. by eexists.
  - by exists [].
Qed.

(** C7. An element built from attributes without [id] is rendered without
    any error on that account: when the kinds of its members have a
    prefix, [to_ttl] returns lines, and the first one is the subject made
    of the prefix of the kind followed by [None]. *)
Theorem to_ttl_without_id_subject_none (tag : string)
    (meta : gmap string string)
    (xml_tags : option (list (string * string))) (xml_nds : option (list Z))
    (xml_members : option (list (string * Z * option string)))
    (xml_filter : option OSMElementFilter.t)
    (tagcaster : option OSMElementTagValueCast.t) (el : t) :
  meta !! "id" = None ->
  __init__ tag meta xml_tags xml_nds xml_members xml_filter tagcaster = Ok el ->
  Forall (fun m => is_Some (OSM_ELEMENT_PREFIX !! m.1.1))
    (default [] xml_members) ->
  exists prefix rest,
    OSM_ELEMENT_PREFIX !! tag = Some prefix
    /\ to_ttl el = Ok ((prefix +:+ "None") :: rest).
Proof.
  intros Hid Hinit Hmembers.
  apply init_ok_fields in Hinit
    as (prefix & Hp & Hid' & _ & _ & Hbase & _ & _ & _ & Hm & _).
  rewrite parsed_absent in Hid' by exact Hid. injection Hid' as Hid'.
  rewrite <- Hm in Hmembers.
  apply ttl_members_ok in Hmembers as [lines Hlines].
  exists prefix. eexists. split; [exact Hp|].
  unfold to_ttl. rewrite Hlines. cbn. rewrite Hbase, <- Hid'. reflexivity.
Qed.

Lemma lines_with_app (p : string) (l1 l2 : list string) :
  lines_with p (l1 ++ l2) = lines_with p l1 ++ lines_with p l2.
Proof. apply filter_app. Qed.

Lemma lines_with_other (p x : string) (l : list string) :
  Py.startswith p x = false -> lines_with p (x :: l) = lines_with p l.
Proof.
  intros Hx. unfold lines_with. apply filter_cons_False.
  rewrite Hx. discriminate.
Qed.

Lemma lines_with_same (p x : string) (l : list string) :
  Py.startswith p x = true -> lines_with p (x :: l) = x :: lines_with p l.
Proof. intros Hx. unfold lines_with. by apply filter_cons_True. Qed.

Lemma prefix_cases (tag prefix : string) :
  OSM_ELEMENT_PREFIX !! tag = Some prefix ->
  prefix = "osmnode:" \/ prefix = "osmrel:" \/ prefix = "osmt:"
  \/ prefix = "osmway:".
Proof.
  unfold OSM_ELEMENT_PREFIX.
  rewrite !lookup_insert_Some, lookup_empty.
  intros Hcases.
  repeat (destruct Hcases as [[_ <-]|[_ Hcases]]; [tauto|]).
  discriminate.
Qed.

Lemma to_ttl_ok_inv (el : t) (lines : list string) :
  to_ttl el = Ok lines ->
  exists members,
    ttl_members el = Ok members
    /\ lines = [_basegroup el] ++ ttl_changeset el ++ ttl_loc el
               ++ ttl_timestamp el ++ ttl_type el ++ ttl_user el
               ++ ttl_userid el ++ ttl_version el ++ ttl_tags el
               ++ ttl_nds el ++ members ++ ["."].
Proof.
  unfold to_ttl. intros Hl.
  apply bind_ok_inv in Hl as (members & Hm & Hl).
  exists members. split; [exact Hm | by injection Hl].
Qed.

Ltac other_block :=
  match goal with
  | |- lines_with _ (if ?c then _ else _) = [] => destruct c
  | |- lines_with _ (match ?c with _ => _ end) = [] => destruct c
  | |- lines_with _ [] = [] => reflexivity
  | |- lines_with _ (_ :: _) = [] =>
      rewrite lines_with_other by reflexivity
  end.

Lemma lines_with_tags (p : string) (el : t) :
  meta_line p -> lines_with p (ttl_tags el) = [].
Proof.
  intros Hp. unfold ttl_tags.
  destruct (_el_osm_tags el) as [tags|]; [|reflexivity].
  induction tags as [|[key value] tags IH]; [reflexivity|].
  cbn [map concat]. rewrite lines_with_app, IH, app_nil_r.
  unfold ttl_tag. destruct Hp as [-> | ->]; repeat other_block.
Qed.

Lemma lines_with_members (p : string) (el : t) (members : list string) :
  meta_line p -> ttl_members el = Ok members -> lines_with p members = [].
Proof.
  intros Hp. unfold ttl_members.
  destruct (_el_osm_members el) as [[|m ms]|]; try (by intros [= <-]).
  intros Hm. apply bind_ok_inv in Hm as (parts & _ & [= <-]).
  destruct Hp as [-> | ->]; repeat other_block.
Qed.

Lemma lines_with_subject (p tag : string) (prefix rest : string) :
  meta_line p -> OSM_ELEMENT_PREFIX !! tag = Some prefix ->
  Py.startswith p (prefix +:+ rest) = false.
Proof.
  intros Hp Hprefix. apply prefix_cases in Hprefix.
  destruct Hp as [-> | ->];
    destruct Hprefix as [-> | [-> | [-> | ->]]]; reflexivity.
Qed.

Ltac plain_block :=
  intros [-> | ->];
  first [ progress unfold ttl_changeset | progress unfold ttl_timestamp
        | progress unfold ttl_user | progress unfold ttl_userid
        | progress unfold ttl_version | progress unfold ttl_nds ];
  repeat other_block.

Lemma lines_with_changeset (p : string) (el : t) :
  meta_line p -> lines_with p (ttl_changeset el) = [].
Proof. plain_block. Qed.

Lemma lines_with_timestamp (p : string) (el : t) :
  meta_line p -> lines_with p (ttl_timestamp el) = [].
Proof. plain_block. Qed.

Lemma lines_with_user (p : string) (el : t) :
  meta_line p -> lines_with p (ttl_user el) = [].
Proof. plain_block. Qed.

Lemma lines_with_userid (p : string) (el : t) :
  meta_line p -> lines_with p (ttl_userid el) = [].
Proof. plain_block. Qed.

Lemma lines_with_version (p : string) (el : t) :
  meta_line p -> lines_with p (ttl_version el) = [].
Proof. plain_block. Qed.

Lemma lines_with_nds (p : string) (el : t) :
  meta_line p -> lines_with p (ttl_nds el) = [].
Proof. plain_block. Qed.

Lemma lines_with_loc_type (el : t) :
  lines_with "    osmm:loc" (ttl_type el) = []
  /\ lines_with "    osmm:type" (ttl_loc el) = [].
Proof. split; [unfold ttl_type | unfold ttl_loc]; repeat other_block. Qed.

Lemma lines_with_own (el : t) :
  lines_with "    osmm:loc" (ttl_loc el) = ttl_loc el
  /\ lines_with "    osmm:type" (ttl_type el) = ttl_type el.
Proof.
  split.
  - unfold ttl_loc.
    destruct (Py.truthy_float (lat el) && Py.truthy_float (lon el));
      [|reflexivity].
    by rewrite lines_with_same by reflexivity.
  - unfold ttl_type.
    destruct (OSM_ELEMENT_TYPE_LITERAL !! _tag el); [|reflexivity].
    by rewrite lines_with_same by reflexivity.
Qed.

(** The lines of a rendering that start with [osmm:loc] are those of
    [ttl_loc], and the lines that start with [osmm:type] those of
    [ttl_type]. *)
Lemma to_ttl_meta_lines (tag : string) (meta : gmap string string)
    (xml_tags : option (list (string * string))) (xml_nds : option (list Z))
    (xml_members : option (list (string * Z * option string)))
    (xml_filter : option OSMElementFilter.t)
    (tagcaster : option OSMElementTagValueCast.t) (el : t)
    (lines : list string) :
  __init__ tag meta xml_tags xml_nds xml_members xml_filter tagcaster = Ok el ->
  to_ttl el = Ok lines ->
  lines_with "    osmm:loc" lines = ttl_loc el
  /\ lines_with "    osmm:type" lines = ttl_type el.
Proof.
  intros Hinit Hl.
  apply init_ok_fields in Hinit as (prefix & Hp & _ & _ & _ & Hbase & _).
  apply to_ttl_ok_inv in Hl as (members & Hm & ->).
  pose proof (lines_with_loc_type el) as [Hlt Htl].
  pose proof (lines_with_own el) as [Hll Htt].
  split.
  - assert (Hmeta : meta_line "    osmm:loc") by (by left).
    rewrite !lines_with_app, Hll, Hlt.
    rewrite (lines_with_tags _ el Hmeta), (lines_with_members _ el _ Hmeta Hm).
    rewrite lines_with_changeset, lines_with_timestamp, lines_with_user,
      lines_with_userid, lines_with_version, lines_with_nds by exact Hmeta.
    rewrite Hbase, lines_with_other by (by eapply lines_with_subject).
    cbn [app]. by rewrite app_nil_r.
  - assert (Hmeta : meta_line "    osmm:type") by (by right).
    rewrite !lines_with_app, Htt, Htl.
    rewrite (lines_with_tags _ el Hmeta), (lines_with_members _ el _ Hmeta Hm).
    rewrite lines_with_changeset, lines_with_timestamp, lines_with_user,
      lines_with_userid, lines_with_version, lines_with_nds by exact Hmeta.
    rewrite Hbase, lines_with_other by (by eapply lines_with_subject).
    cbn [app]. by rewrite app_nil_r.
Qed.

(** C4. In the rendering of an element, the lines that start with
    [osmm:loc] are: the one line [Point(<lat> <lon>)], latitude first, when
    [lat] and [lon] are both set and both different from zero, and none
    otherwise.  A coordinate equal to [0.0] hides the line just as a
    missing one does. *)
Theorem to_ttl_loc_needs_nonzero (tag : string) (meta : gmap string string)
    (xml_tags : option (list (string * string))) (xml_nds : option (list Z))
    (xml_members : option (list (string * Z * option string)))
    (xml_filter : option OSMElementFilter.t)
    (tagcaster : option OSMElementTagValueCast.t) (el : t)
    (lines : list string) :
  __init__ tag meta xml_tags xml_nds xml_members xml_filter tagcaster = Ok el ->
  to_ttl el = Ok lines ->
  (forall x y : PrimFloat.float,
      lat el = Some x -> lon el = Some y ->
      PrimFloat.eqb x 0 = false -> PrimFloat.eqb y 0 = false ->
      lines_with "    osmm:loc" lines
      = ["    osmm:loc " +:+ Py.DQ +:+ "Point(" +:+ Py.str_of_float x +:+ " "
           +:+ Py.str_of_float y +:+ ")" +:+ Py.DQ +:+ "^^geo:wktLiteral ;"])
  /\ (lat el = None \/ lon el = None
      \/ lat el = Some 0%float \/ lon el = Some 0%float ->
      lines_with "    osmm:loc" lines = []).
Proof.
  intros Hinit Hl.
  destruct (to_ttl_meta_lines _ _ _ _ _ _ _ _ _ Hinit Hl) as [-> _].
  unfold ttl_loc. split.
  - intros x y -> -> Hx Hy. cbn. by rewrite Hx, Hy.
  - intros [-> | [-> | [-> | ->]]]; cbn; try reflexivity.
    + by rewrite andb_false_r.
    + by rewrite andb_false_r.
Qed.

(** C5. In the rendering of an element, the lines that start with
    [osmm:type] are: one line with the literal [n] for a node, one with
    [w] for a way, and none for a relation, whose name is not a key of
    [OSM_ELEMENT_TYPE_LITERAL]. *)
Theorem to_ttl_type_by_kind (tag : string) (meta : gmap string string)
    (xml_tags : option (list (string * string))) (xml_nds : option (list Z))
    (xml_members : option (list (string * Z * option string)))
    (xml_filter : option OSMElementFilter.t)
    (tagcaster : option OSMElementTagValueCast.t) (el : t)
    (lines : list string) :
  __init__ tag meta xml_tags xml_nds xml_members xml_filter tagcaster = Ok el ->
  to_ttl el = Ok lines ->
  (tag = "node" ->
   lines_with "    osmm:type" lines
   = ["    osmm:type " +:+ Py.DQ +:+ "n" +:+ Py.DQ +:+ " ;"])
  /\ (tag = "way" ->
      lines_with "    osmm:type" lines
      = ["    osmm:type " +:+ Py.DQ +:+ "w" +:+ Py.DQ +:+ " ;"])
  /\ (tag = "relation" -> lines_with "    osmm:type" lines = []).
Proof.
  intros Hinit Hl.
  destruct (to_ttl_meta_lines _ _ _ _ _ _ _ _ _ Hinit Hl) as [_ ->].
  apply init_ok_fields in Hinit as (_ & _ & _ & _ & _ & _ & Htag & _).
  unfold ttl_type. rewrite Htag.
  repeat split; intros ->; reflexivity.
Qed.

End Element.

Section ElementExamples.
Import OSMElement.

Lemma to_ttl_loc_needs_nonzero_witness :
  (exists el,
      @__init__ example_builtins "node" meta_equator
        None None None None None = Ok el
      /\ @to_ttl example_builtins el
         = Ok ["osmnode:1"; "    osmm:type " +:+ Py.DQ +:+ "n" +:+ Py.DQ +:+ " ;";
               "."]
      /\ lines_with "    osmm:loc"
           ["osmnode:1"; "    osmm:type " +:+ Py.DQ +:+ "n" +:+ Py.DQ +:+ " ;";
            "."] = [])
  /\ (exists el lines,
        @__init__ example_builtins "node" meta_cafe
          None None None None None = Ok el
        /\ @to_ttl example_builtins el = Ok lines
        /\ lines_with "    osmm:loc" lines
           = ["    osmm:loc " +:+ Py.DQ +:+ "Point(1.0 2.0)" +:+ Py.DQ
                +:+ "^^geo:wktLiteral ;"]).
Proof.
  split.
  - eexists. split; [vm_compute; reflexivity|].
    split; [vm_compute; reflexivity|].
    refine (proj2 (@to_ttl_loc_needs_nonzero example_builtins "node"
                     meta_equator None None None None None _ _ _ _) _).
    + vm_compute; reflexivity.
    + vm_compute; reflexivity.
    + right; right; left. reflexivity.
  - eexists. eexists. split; [vm_compute; reflexivity|].
    split; [vm_compute; reflexivity|].
    refine (proj1 (@to_ttl_loc_needs_nonzero example_builtins "node"
                     meta_cafe None None None None None _ _ _ _)
              1%float 2%float _ _ _ _).
    + vm_compute; reflexivity.
    + vm_compute; reflexivity.
    + reflexivity.
    + reflexivity.
    + reflexivity.
    + reflexivity.
Defined.

Lemma to_ttl_type_by_kind_witness :
  (exists el,
      @__init__ example_builtins "relation" meta_id_1
        None None None None None = Ok el
      /\ @to_ttl example_builtins el = Ok ["osmrel:1"; "."]
      /\ lines_with "    osmm:type" ["osmrel:1"; "."] = [])
  /\ (exists el lines,
        @__init__ example_builtins "node" meta_id_1
          None None None None None = Ok el
        /\ @to_ttl example_builtins el = Ok lines
        /\ lines_with "    osmm:type" lines
           = ["    osmm:type " +:+ Py.DQ +:+ "n" +:+ Py.DQ +:+ " ;"])
  /\ (exists el lines,
        @__init__ example_builtins "way" meta_id_1
          None None None None None = Ok el
        /\ @to_ttl example_builtins el = Ok lines
        /\ lines_with "    osmm:type" lines
           = ["    osmm:type " +:+ Py.DQ +:+ "w" +:+ Py.DQ +:+ " ;"]).
Proof.
  split; [|split].
  - eexists. split; [vm_compute; reflexivity|].
    split; [vm_compute; reflexivity|].
    refine (proj2 (proj2 (@to_ttl_type_by_kind example_builtins "relation"
                            meta_id_1 None None None None None _ _ _ _)) _).
    + vm_compute; reflexivity.
    + vm_compute; reflexivity.
    + reflexivity.
  - eexists. eexists. split; [vm_compute; reflexivity|].
    split; [vm_compute; reflexivity|].
    refine (proj1 (@to_ttl_type_by_kind example_builtins "node"
                     meta_id_1 None None None None None _ _ _ _) _).
    + vm_compute; reflexivity.
    + vm_compute; reflexivity.
    + reflexivity.
  - eexists. eexists. split; [vm_compute; reflexivity|].
    split; [vm_compute; reflexivity|].
    refine (proj1 (proj2 (@to_ttl_type_by_kind example_builtins "way"
                            meta_id_1 None None None None None _ _ _ _)) _).
    + vm_compute; reflexivity.
    + vm_compute; reflexivity.
    + reflexivity.
Defined.

Lemma can_output_without_filter_raises_witness :
  exists el,
    @__init__ example_builtins "node" meta_id_1
      None None None None None = Ok el
    /\ can_output el = Raise AttributeError.
Proof.
  eexists. split; [vm_compute; reflexivity|].
  refine (proj1 (@can_output_without_filter_raises example_builtins "node"
                   meta_id_1 None None None None _ _)).
  vm_compute; reflexivity.
Defined.

Lemma to_ttl_without_id_subject_none_witness :
  exists el prefix rest,
    meta_none !! "id" = None
    /\ @__init__ example_builtins "node" meta_none None None None None None = Ok el
    /\ OSM_ELEMENT_PREFIX !! "node" = Some prefix
    /\ @to_ttl example_builtins el = Ok ((prefix +:+ "None") :: rest).
Proof.
  destruct (@to_ttl_without_id_subject_none example_builtins "node" meta_none
              None None None None None
              {| _basegroup := "osmnode:None"; _tag := "node";
                 _el_osm_tags := None; _el_osm_nds := None;
                 _el_osm_members := None; _xml_filter := None;
                 _tagcaster := None; id := None; changeset := None;
                 timestamp := None; user := None; userid := None;
                 version := None; lat := None; lon := None |}
              ltac:(reflexivity) ltac:(vm_compute; reflexivity)
              ltac:(constructor))
    as (prefix & rest & Hprefix & Hlines).
  eexists. exists prefix, rest.
  split; [reflexivity|]. split; [reflexivity|]. split; assumption.
Defined.

(** The claim as it is stated, an error raised at rendering, fails on a
    node without attributes: [to_ttl] returns the lines of a block whose
    subject is [osmnode:None]. *)
Lemma to_ttl_without_id_raises_fails :
  meta_none !! "id" = None
  /\ (el ← @__init__ example_builtins "node" meta_none None None None None None;
      @to_ttl example_builtins el)
     = Ok ["osmnode:None";
           "    osmm:type " +:+ Py.DQ +:+ "n" +:+ Py.DQ +:+ " ;"; "."]
  /\ forall e : exn,
      (el ← @__init__ example_builtins "node" meta_none None None None None None;
       @to_ttl example_builtins el) <> Raise e.
Proof.
  split; [reflexivity|]. split; [vm_compute; reflexivity|].
  intros e. vm_compute. discriminate.
Qed.

(** The scenarios of the specification, run on the model. *)
Example node_with_tag_rendering :
  @osmrdf_node_xml2ttl example_builtins (reader_of cafe_doc cafe_root) cafe_doc
  = Ok (turtle_document
          ["osmnode:1";
           "    osmm:loc " +:+ Py.DQ +:+ "Point(1.0 2.0)" +:+ Py.DQ
             +:+ "^^geo:wktLiteral ;";
           "    osmm:type " +:+ Py.DQ +:+ "n" +:+ Py.DQ +:+ " ;";
           "    osmt:amenity " +:+ Py.DQ +:+ "cafe" +:+ Py.DQ +:+ " ;";
           "."]).
Proof. vm_compute. reflexivity. Qed.

Example relation_member_rendering :
  (el ← @__init__ example_builtins "relation" meta_id_1 None None
          (Some [("way", 5%Z, Some "outer")]) None None;
   @to_ttl example_builtins el)
  = Ok ["osmrel:1"; "    osmx:hasmembers ([osmx:hasroleouter osmway:5]) ;"; "."].
Proof. vm_compute. reflexivity. Qed.

Example wikidata_tag_rendering :
  (el ← @__init__ example_builtins "node" meta_id_1
          (Some [("wikidata", "Q42")]) None None None
          (Some (OSMElementTagValueCast.__init__ None));
   @to_ttl example_builtins el)
  = Ok ["osmnode:1";
        "    osmm:type " +:+ Py.DQ +:+ "n" +:+ Py.DQ +:+ " ;";
        "    osmt:wikidata " +:+ Py.DQ +:+ "Q42" +:+ Py.DQ +:+ " ;";
        "    osmx:wikidata wikidata:Q42 ;";
        "."].
Proof. vm_compute. reflexivity. Qed.

End ElementExamples.

(** ** Single-element conversions *)

Section ConversionProps.
Context `{Py.Builtins} `{XmlReader}.

Lemma join_snoc (sep : string) (l : list string) (x y : string) :
  Py.join sep (l ++ [x; y]) = Py.join sep (l ++ [x]) +:+ sep +:+ y.
Proof.
  induction l as [|a l IH]; [reflexivity|].
  cbn [app]. destruct l as [|b l].
  - cbn. by rewrite !append_assoc.
  - change (Py.join sep (a :: (b :: l) ++ [x; y]))
      with (a +:+ sep +:+ Py.join sep ((b :: l) ++ [x; y])).
    change (Py.join sep (a :: (b :: l) ++ [x]))
      with (a +:+ sep +:+ Py.join sep ((b :: l) ++ [x])).
    by rewrite IH, !append_assoc.
Qed.

Lemma append_same_inv (s t : string) : s +:+ t = s -> t = "".
Proof.
  induction s as [|c s IH]; [done|].
  rewrite append_cons. intros [= Hs]. by apply IH.
Qed.

Lemma conversions_by_block (data_xml : string) :
  osmrdf_node_xml2ttl data_xml
  = (ttl ← element_block data_xml; Ok (turtle_document ttl))
  /\ osmrdf_way_xml2ttl data_xml
     = (ttl ← element_block data_xml; Ok (turtle_document ttl))
  /\ osmrdf_relation_xml2ttl data_xml
     = (ttl ← element_block data_xml;
        Ok (turtle_document ttl +:+ Py.LF +:+ "# "
              +:+ Py.join (Py.LF +:+ "# ") (Py.split Py.LF data_xml))).
Proof.
  unfold osmrdf_node_xml2ttl, osmrdf_way_xml2ttl, osmrdf_relation_xml2ttl,
    element_block, turtle_document.
  destruct (OSMApiv06Xml.__init__ data_xml) as [osmx|e]; [|done].
  cbn [mbind result_bind].
  destruct (OSMApiv06Xml.node osmx) as [osmnode|e]; [|done].
  cbn [mbind result_bind].
  destruct (to_ttl_of osmnode) as [ttl|e]; [|done].
  cbn [mbind result_bind]. repeat split.
  f_equal.
  replace (RDF_TURTLE_PREFIXES ++ [""] ++ ttl ++ [""] ++
             ["# " +:+ Py.join (Py.LF +:+ "# ") (Py.split Py.LF data_xml)])
    with ((RDF_TURTLE_PREFIXES ++ [""] ++ ttl) ++
            [""; "# " +:+ Py.join (Py.LF +:+ "# ") (Py.split Py.LF data_xml)])
    by (by rewrite <- !app_assoc).
  rewrite join_snoc. by rewrite <- !app_assoc.
Qed.

(** C6. When the element of a document renders to the lines [ttl], the
    node and way conversions return the nine prefix lines, an empty line,
    [ttl] and an empty line, joined by line feeds; the relation conversion
    returns that text followed by one more line feed and the document
    itself as comment lines, so its output does not stop after the blank
    line. *)
Theorem osmrdf_relation_xml2ttl_appends_comment (data_xml : string)
    (ttl : list string) :
  element_block data_xml = Ok ttl ->
  length RDF_TURTLE_PREFIXES = 9
  /\ osmrdf_node_xml2ttl data_xml = Ok (turtle_document ttl)
  /\ osmrdf_way_xml2ttl data_xml = Ok (turtle_document ttl)
  /\ osmrdf_relation_xml2ttl data_xml
     = Ok (turtle_document ttl +:+ Py.LF +:+ "# "
             +:+ Py.join (Py.LF +:+ "# ") (Py.split Py.LF data_xml))
  /\ osmrdf_relation_xml2ttl data_xml <> Ok (turtle_document ttl).
Proof.
  intros Hblock.
  destruct (conversions_by_block data_xml) as (Hnode & Hway & Hrel).
  rewrite Hnode, Hway, Hrel, Hblock. cbn [mbind result_bind].
  repeat split. intros [= Heq]. by apply append_same_inv in Heq.
Qed.

End ConversionProps.

Lemma osmrdf_relation_xml2ttl_appends_comment_witness :
  @element_block example_builtins (reader_of relation_doc relation_root)
    relation_doc = Ok ["osmrel:1"; "."]
  /\ @osmrdf_relation_xml2ttl example_builtins
       (reader_of relation_doc relation_root) relation_doc
     = Ok (turtle_document ["osmrel:1"; "."] +:+ Py.LF
             +:+ "# <osm><relation id='1'/></osm>")
  /\ @osmrdf_relation_xml2ttl example_builtins
       (reader_of relation_doc relation_root) relation_doc
     <> Ok (turtle_document ["osmrel:1"; "."]).
Proof.
  assert (Hblock : @element_block example_builtins
                     (reader_of relation_doc relation_root) relation_doc
                   = Ok ["osmrel:1"; "."]) by (vm_compute; reflexivity).
  split; [exact Hblock|].
  destruct (@osmrdf_relation_xml2ttl_appends_comment example_builtins
              (reader_of relation_doc relation_root) relation_doc
              ["osmrel:1"; "."] Hblock) as (_ & _ & _ & Hrel & Hne).
  split; [exact Hrel | exact Hne].
Defined.

(** The Turtle text of [relation_doc] in relation mode, line by line. *)
Example osmrdf_relation_xml2ttl_lines :
  @osmrdf_relation_xml2ttl example_builtins
    (reader_of relation_doc relation_root) relation_doc
  = Ok (Py.join Py.LF
          (RDF_TURTLE_PREFIXES
             ++ [""; "osmrel:1"; "."; ""; "# <osm><relation id='1'/></osm>"])).
Proof. vm_compute. reflexivity. Qed.

(** [str.split] on some strings. *)
Example split_examples :
  Py.split "," "a,b,,c" = ["a"; "b"; ""; "c"]
  /\ Py.split "ab" "xabyab" = ["x"; "y"; ""]
  /\ Py.split Py.LF "abc" = ["abc"]
  /\ Py.split "," "" = [""].
Proof. repeat split; vm_compute; reflexivity. Qed.

(** * Further properties of the code *)

(** ** [retag] on any list of rules *)

Section RetagGeneral.
Import OSMElementTagger.

Lemma found_split (r : rule) (pairs : tags) :
  existsb (key_found r) pairs = true ->
  exists k v after,
    pairs = before_found r pairs ++ (k, v) :: after
    /\ key_found r (k, v) = true
    /\ Forall (fun kv => key_found r kv = false) (before_found r pairs).
Proof.
  induction pairs as [|[k v] pairs IH]; [discriminate|].
  cbn [existsb before_found]. destruct (key_found r (k, v)) eqn:Hk.
  - intros _. exists k, v, pairs. by repeat split.
  - cbn [orb]. intros Hex. destruct (IH Hex) as (k' & v' & after & Hp & Hk' & Hb).
    exists k', v', after. split; [by rewrite <- app_comm_cons, <- Hp|].
    split; [exact Hk'|]. by constructor.
Qed.

Lemma none_found (r : rule) (pairs : tags) :
  existsb (key_found r) pairs = false ->
  Forall (fun kv => key_found r kv = false) pairs.
Proof.
  induction pairs as [|kv pairs IH]; [constructor|].
  cbn [existsb]. intros [Hk Hex]%orb_false_elim. constructor; auto.
Qed.

Lemma before_found_none (r : rule) (pairs : tags) :
  Forall (fun kv => key_found r kv = false) pairs ->
  before_found r pairs = pairs.
Proof.
  induction 1 as [|kv pairs Hk _ IH]; [reflexivity|].
  cbn [before_found]. by rewrite Hk, IH.
Qed.

(** The inner loop, for any operation. *)
Lemma scan_rebuilt (r : rule) (pairs : tags) (left_rules left_rules' : list nat)
    (new_tags_temp : tags) :
  (op r = "-" ->
   length (filter (fun kv => key_found r kv = true) pairs) <= 1) ->
  Py.list_remove (i r) left_rules = Ok left_rules' ->
  scan r pairs left_rules new_tags_temp
  = Ok (if satisfied r pairs then left_rules' else left_rules,
        new_tags_temp ++ rebuilt r pairs).
Proof.
  intros Hone Hrm. unfold satisfied, rebuilt.
  destruct (String.eqb (op r) "-") eqn:Hminus.
  - apply String.eqb_eq in Hminus.
    rewrite (scan_remove_at_most_one r pairs left_rules left_rules') by auto.
    reflexivity.
  - destruct (String.eqb (op r) "+") eqn:Hplus; cbn [orb andb].
    + apply String.eqb_eq in Hplus.
      destruct (existsb (key_found r) pairs) eqn:Hex.
      * destruct (found_split r pairs Hex) as (k & v & after & Hp & Hk & Hb).
        rewrite Hp at 1. rewrite scan_add_found by done.
        by rewrite Hrm.
      * apply none_found in Hex.
        rewrite scan_none_found by exact Hex.
        by rewrite before_found_none.
    + clear Hone Hrm. revert new_tags_temp.
      induction pairs as [|[k v] pairs IH]; intros new_tags_temp.
      * cbn. by rewrite app_nil_r.
      * cbn [scan]. rewrite Hminus, Hplus. cbn [andb].
        rewrite IH, <- app_assoc. reflexivity.
Qed.

Lemma list_remove_middle (x : nat) (before after : list nat) :
  x ∉ before ->
  Py.list_remove x (before ++ x :: after) = Ok (before ++ after).
Proof.
  induction before as [|y before IH]; intros Hx.
  - apply list_remove_head.
  - apply not_elem_of_cons in Hx as [Hxy Hx].
    cbn [app Py.list_remove].
    destruct (Nat.eqb y x) eqn:E; [apply Nat.eqb_eq in E; congruence|].
    rewrite IH by exact Hx. reflexivity.
Qed.

(** The loop over the rules: what is left in [left_rules] and what
    [new_tags_temp] holds at its end. *)
Lemma each_rule_left_over (rs : list rule) (element : string) (pairs : tags)
    (k : nat) (before : list nat) (new_tags_temp : tags) :
  indexed_from k rs ->
  removes_at_most_one rs element pairs ->
  Forall (fun x => x < k) before ->
  each_rule rs element pairs (before ++ seq k (length rs)) new_tags_temp
  = Ok (before ++ map i (left_over rs element pairs),
        last_rebuilt rs element pairs new_tags_temp).
Proof.
  revert k before new_tags_temp.
  induction rs as [|r rs IH]; intros k before new_tags_temp Hix Hone Hlt.
  - reflexivity.
  - apply indexed_from_cons in Hix as [Hi Hix].
    apply Forall_cons in Hone as [Hr Hone].
    assert (Hk : k ∉ before).
    { intros Hin. rewrite Forall_forall in Hlt. specialize (Hlt k Hin). lia. }
    assert (Hrm : Py.list_remove (i r) (before ++ seq k (length (r :: rs)))
                  = Ok (before ++ seq (S k) (length rs))).
    { rewrite Hi. cbn [length seq]. by apply list_remove_middle. }
    cbn [each_rule last_rebuilt fold_left]. unfold left_over.
    destruct (skipped r element) eqn:Hs.
    + rewrite Hrm. cbn [mbind result_bind].
      rewrite filter_cons_False by (intros [? _]; congruence).
      apply IH; try done.
      eapply Forall_impl; [exact Hlt | cbn; lia].
    + rewrite (scan_rebuilt r pairs _ _ [] (Hr eq_refl) Hrm).
      cbn [mbind result_bind fst snd app].
      destruct (satisfied r pairs) eqn:Hsat.
      * rewrite filter_cons_False by (intros [_ ?]; congruence).
        apply IH; try done.
        eapply Forall_impl; [exact Hlt | cbn; lia].
      * rewrite filter_cons_True by done.
        cbn [map length seq]. rewrite Hi.
        replace (before ++ k :: seq (S k) (length rs))
          with ((before ++ [k]) ++ seq (S k) (length rs))
          by (by rewrite <- app_assoc).
        replace (before ++ k :: map i (filter
                   (fun r0 => skipped r0 element = false
                              /\ satisfied r0 pairs = false) rs))
          with ((before ++ [k]) ++ map i (left_over rs element pairs))
          by (by rewrite <- app_assoc).
        apply IH; try done.
        apply Forall_app. split.
        -- eapply Forall_impl; [exact Hlt | cbn; lia].
        -- repeat constructor.
Qed.

Lemma indexed_lookup (rs : list rule) (r : rule) :
  indexed_from 0 rs -> r ∈ rs -> rs !! i r = Some r.
Proof.
  unfold indexed_from. intros Hix [j Hj]%list_elem_of_lookup.
  assert (Hi : map i rs !! j = Some (i r))
    by (change (map i rs) with (i <$> rs); by rewrite list_lookup_fmap, Hj).
  rewrite Hix in Hi. apply lookup_seq in Hi as [Hi _]. cbn in Hi.
  by rewrite Hi.
Qed.

(** The closing loop over indices of rules of [rs]. *)
Lemma append_left_rules (rs sub : list rule) (new_tags : tags) :
  indexed_from 0 rs ->
  Forall (fun r => r ∈ rs) sub ->
  append_left rs (map i sub) new_tags
  = Ok (new_tags ++ map (fun r => (xack r, xacv r))
                      (filter (fun r => op r = "+") sub)).
Proof.
  intros Hix Hsub. revert new_tags.
  induction Hsub as [|r sub Hr _ IH]; intros new_tags.
  - cbn. by rewrite app_nil_r.
  - cbn [map append_left]. unfold Py.getitem.
    rewrite (indexed_lookup rs r Hix Hr). cbn [of_option mbind result_bind].
    destruct (String.eqb (op r) "+") eqn:Hop.
    + apply String.eqb_eq in Hop.
      rewrite filter_cons_True by exact Hop.
      rewrite IH, <- app_assoc. reflexivity.
    + apply String.eqb_neq in Hop.
      rewrite filter_cons_False by exact Hop. apply IH.
Qed.

(** X1. [retag] with any numbered list of rules, when no [-] rule for the
    element finds more than one key: the result is the list built from
    the input by the last rule that is for the element (the work of the
    rules before it is lost), followed by the pairs of the [+] rules that
    are for the element and found no key, in the order of the rules. *)
Theorem retag_last_rule_and_appended (r : rule) (rs : list rule)
    (element : string) (de_facto_tags : tags) :
  indexed_from 0 (r :: rs) ->
  removes_at_most_one (r :: rs) element de_facto_tags ->
  retag {| rules := Some (r :: rs) |} element de_facto_tags
  = Ok (last_rebuilt (r :: rs) element de_facto_tags []
          ++ appended (r :: rs) element de_facto_tags).
Proof.
  intros Hix Hone. unfold retag. cbn [rules]. cbv zeta.
  pose proof (each_rule_left_over (r :: rs) element de_facto_tags 0 [] []
                Hix Hone (Forall_nil_2 _)) as Hloop.
  cbn [app] in Hloop. rewrite Hloop.
  cbn [mbind result_bind fst snd app].
  apply append_left_rules; [exact Hix|].
  apply Forall_forall. intros r' Hr'. unfold left_over in Hr'.
  by apply list_elem_of_filter in Hr' as [_ Hr'].
Qed.

Lemma retag_last_rule_and_appended_witness :
  retag {| rules := Some [rule_add_is_in 0; rule_remove_created_by 1;
                          rule_add_maxspeed 2] |}
    "way" [("highway", "primary"); ("created_by", "JOSM")]
  = Ok [("highway", "primary"); ("created_by", "JOSM"); ("is_in", "BRA");
        ("shacl:lessThanOrEquals:maxspeed", "120")].
Proof.
  refine (retag_last_rule_and_appended (rule_add_is_in 0)
            [rule_remove_created_by 1; rule_add_maxspeed 2] "way"
            [("highway", "primary"); ("created_by", "JOSM")] _ _).
  - reflexivity.
  - repeat constructor; intros; vm_compute; lia.
Defined.







Lemma append_nil_r (s : string) : s +:+ "" = s.
Proof.
  induction s as [|c s IH]; [reflexivity|]. by rewrite append_cons, IH.
Qed.

Lemma str_in_refl (s : string) : Py.str_in s s = true.
Proof.
  apply str_in_spec. exists "", "". by rewrite append_nil, append_nil_r.
Qed.

(** A [+] rule alone in the tagger that finds a key. *)
Lemma retag_add_found (r : rule) (element : string)
    (before after : tags) (k v : string) :
  op r = "+" -> i r = 0 -> skipped r element = false ->
  Forall (fun kv => key_found r kv = false) before ->
  key_found r (k, v) = true ->
  retag (tagger_of r) element (before ++ (k, v) :: after) = Ok before.
Proof.
  intros Hop Hi Hs Hbefore Hk. unfold retag, tagger_of. cbn [rules length seq].
  rewrite each_rule_single by exact Hs.
  rewrite scan_add_found by done.
  rewrite Hi, list_remove_head. reflexivity.
Qed.

(** X3. Applying one [+] rule twice undoes it: when [retag] has appended
    the pair of the rule to a list in which it found no key, [retag] on
    that result, followed by any further pairs, finds the key of the pair
    it appended and returns the first list again, without the pair of the
    rule and without the further pairs.  This is what the two calls of
    [retag] in [osmrdf_xmldump2_ttl_v2] do to the explicit and the
    implicit tags of an element. *)
Theorem retag_twice_undoes_add (r : rule) (element : string)
    (explicit implicit : tags) :
  op r = "+" -> i r = 0 -> skipped r element = false ->
  Forall (fun kv => Py.str_in kv.1 (xack r) = false) explicit ->
  (tags1 ← retag (tagger_of r) element explicit;
   retag (tagger_of r) element (tags1 ++ implicit))
  = Ok explicit.
Proof.
  intros Hop Hi Hs Hnone.
  rewrite retag_add_none_found by done. cbn [mbind result_bind].
  rewrite <- app_assoc. cbn [app].
  apply retag_add_found; try done.
  apply str_in_refl.
Qed.

Lemma retag_twice_undoes_add_witness :
  (tags1 ← retag (tagger_of (rule_add_is_in 0)) "way" [("name", "x")];
   retag (tagger_of (rule_add_is_in 0)) "way" (tags1 ++ [("lanes", "2")]))
  = Ok [("name", "x")].
Proof.
  apply (retag_twice_undoes_add (rule_add_is_in 0) "way" [("name", "x")]
           [("lanes", "2")]); try reflexivity.
  repeat constructor.
Defined.

End RetagGeneral.

(** ** Reading the rules *)

Section ParseRules.
Import OSMElementTagger.

Lemma parse_lines_length (parts : list string) (k : nat) (rs : list rule) :
  parse_lines k parts = Ok rs -> length rs = length parts.
Proof.
  revert k rs. induction parts as [|text parts IH]; intros k rs Hrs.
  - by injection Hrs as <-.
  - cbn [parse_lines] in Hrs.
    destruct (parse_line k text) as [r|e]; [|discriminate].
    cbn [mbind result_bind] in Hrs.
    destruct (parse_lines (S k) parts) as [rs'|e] eqn:Hrs'; [|discriminate].
    injection Hrs as <-. cbn [length]. f_equal. by eapply IH.
Qed.

(** X4. A tagger read by [parse_rules] holds one rule per line of the
    text, in the order of the lines, and each rule carries the index of
    its line: the rules are numbered from 0 without a gap, which is what
    [retag] relies on when it removes an index from [left_rules]. *)
Theorem parse_rules_numbers_every_line (rules_tsv : string) (tagger : t) :
  parse_rules rules_tsv = Ok tagger ->
  length (default [] (rules tagger)) = length (Py.splitlines rules_tsv)
  /\ indexed_from 0 (default [] (rules tagger)).
Proof.
  unfold parse_rules.
  destruct (parse_lines 0 (Py.splitlines rules_tsv)) as [rs|e] eqn:Hrs;
    [|discriminate].
  pose proof (parse_lines_length _ _ _ Hrs) as Hlen.
  pose proof (parse_lines_indexed _ _ _ Hrs) as Hix.
  destruct rs as [|r rs]; intros [= <-]; cbn [rules default]; done.
Qed.

Lemma parse_rules_numbers_every_line_witness :
  length (default [] (rules {| rules := Some [rule_add_is_in 0;
                                              rule_remove_created_by 1;
                                              rule_add_maxspeed 2] |}))
  = length (Py.splitlines docstring_rules)
  /\ indexed_from 0 [rule_add_is_in 0; rule_remove_created_by 1;
                     rule_add_maxspeed 2].
Proof.
  apply (parse_rules_numbers_every_line docstring_rules).
  vm_compute. reflexivity.
Defined.

Lemma startswith_str_in (sep s : string) :
  Py.startswith sep s = true -> Py.str_in sep s = true.
Proof. intros Hs. destruct s; cbn [Py.str_in]; by rewrite Hs. Qed.

Lemma split_from_absent (sep s cur : string) :
  Py.str_in sep s = false -> Py.split_from sep s 0 cur = [cur +:+ s].
Proof.
  revert cur. induction s as [|c s IH]; intros cur Hs.
  - cbn. by rewrite append_nil_r.
  - cbn [Py.split_from].
    destruct (Py.startswith sep (String c s)) eqn:Hstart.
    + apply startswith_str_in in Hstart. congruence.
    + cbn [Py.str_in] in Hs. rewrite Hstart in Hs.
      rewrite IH by exact Hs. by rewrite append_assoc.
Qed.

Lemma parse_line_without_tab (index : nat) (text : string) :
  Py.str_in Py.TAB text = false -> parse_line index text = Raise IndexError.
Proof.
  intros Htab. unfold parse_line, Py.split.
  rewrite split_from_absent by exact Htab. reflexivity.
Qed.

Lemma parse_lines_bad_line (before after : list string) (text : string)
    (k : nat) :
  Py.str_in Py.TAB text = false ->
  exists e, parse_lines k (before ++ text :: after) = Raise e.
Proof.
  intros Htab. revert k.
  induction before as [|b before IH]; intros k.
  - exists IndexError. cbn [app parse_lines].
    by rewrite parse_line_without_tab.
  - cbn [app parse_lines]. destruct (parse_line k b) as [r|e]; [|by exists e].
    cbn [mbind result_bind]. destruct (IH (S k)) as [e ->]. by exists e.
Qed.

(** X5. One line without a tab anywhere in the text of the rules (a blank
    line between two rules, a line written with spaces) makes
    [parse_rules] leave by [sys.exit()]: no rule of the text is kept, not
    even those of the well-formed lines before it. *)
Theorem parse_rules_line_without_tab_exits (rules_tsv : string)
    (before after : list string) (text : string) :
  Py.splitlines rules_tsv = before ++ text :: after ->
  Py.str_in Py.TAB text = false ->
  parse_rules rules_tsv = Raise SystemExit.
Proof.
  intros Hlines Htab. unfold parse_rules. rewrite Hlines.
  by destruct (parse_lines_bad_line before after text 0 Htab) as [e ->].
Qed.

Lemma parse_rules_line_without_tab_exits_witness :
  parse_rules (docstring_rule_1 +:+ Py.LF +:+ Py.LF +:+ docstring_rule_1)
  = Raise SystemExit.
Proof.
  apply (parse_rules_line_without_tab_exits _ [docstring_rule_1]
           [docstring_rule_1] "");
    vm_compute; reflexivity.
Defined.

End ParseRules.

(** ** Building and rendering elements *)

Section ElementGeneral.
Context `{Py.Builtins}.
Import OSMElement.

Lemma parsed_readable {A : Type} (conv : string -> option A)
    (meta : gmap string string) (k : string) :
  (readable conv meta k
   /\ exists o, parsed (fun s => of_option ValueError (conv s)) meta k = Ok o)
  \/ (~ readable conv meta k
      /\ parsed (fun s => of_option ValueError (conv s)) meta k
         = Raise ValueError).
Proof.
  unfold readable, parsed. destruct (meta !! k) as [v|].
  - destruct (conv v) as [a|]; cbn.
    + left. split; [by exists a | by eexists].
    + right. split; [by intros [? ?] | done].
  - left. split; [done | by eexists].
Qed.

(** X6. [OSMElement.__init__] fails in two ways only.  It raises
    [ValueError] exactly when one of [id], [changeset], [uid], [lat],
    [lon] is present and not a number, whatever the kind; with readable
    numbers it raises [KeyError] exactly when the kind has no entry in
    [OSM_ELEMENT_PREFIX], and returns an element otherwise. *)
Theorem init_outcomes (tag : string) (meta : gmap string string)
    (xml_tags : option (list (string * string))) (xml_nds : option (list Z))
    (xml_members : option (list (string * Z * option string)))
    (xml_filter : option OSMElementFilter.t)
    (tagcaster : option OSMElementTagValueCast.t) :
  (~ numbers_readable meta ->
   __init__ tag meta xml_tags xml_nds xml_members xml_filter tagcaster
   = Raise ValueError)
  /\ (numbers_readable meta -> OSM_ELEMENT_PREFIX !! tag = None ->
      __init__ tag meta xml_tags xml_nds xml_members xml_filter tagcaster
      = Raise KeyError)
  /\ (numbers_readable meta -> is_Some (OSM_ELEMENT_PREFIX !! tag) ->
      exists el,
        __init__ tag meta xml_tags xml_nds xml_members xml_filter tagcaster
        = Ok el).
Proof.
  unfold numbers_readable, __init__, Py.int, Py.float.
  destruct (parsed_readable Py.int_of_str meta "id") as [[Hid [? ->]]|[Hid ->]];
    [|repeat split; tauto].
  cbn [mbind result_bind].
  destruct (parsed_readable Py.int_of_str meta "changeset")
    as [[Hcs [? ->]]|[Hcs ->]]; [|repeat split; tauto].
  cbn [mbind result_bind].
  destruct (parsed_readable Py.int_of_str meta "uid")
    as [[Huid [? ->]]|[Huid ->]]; [|repeat split; tauto].
  cbn [mbind result_bind].
  destruct (parsed_readable Py.float_of_str meta "lat")
    as [[Hlat [? ->]]|[Hlat ->]]; [|repeat split; tauto].
  cbn [mbind result_bind].
  destruct (parsed_readable Py.float_of_str meta "lon")
    as [[Hlon [? ->]]|[Hlon ->]]; [|repeat split; tauto].
  cbn [mbind result_bind]. unfold Py.dict_get.
  split; [tauto|]. split.
  - intros _ ->. reflexivity.
  - intros _ [prefix ->]. by eexists.
Qed.

Lemma for_each_ttl_member_cases (ms : list (string * Z * option string)) :
  (Forall (fun m => is_Some (OSM_ELEMENT_PREFIX !! m.1.1)) ms
   /\ exists parts, Py.for_each ttl_member ms = Ok parts)
  \/ (Exists (fun m => OSM_ELEMENT_PREFIX !! m.1.1 = None) ms
      /\ Py.for_each ttl_member ms = Raise KeyError).
Proof.
  induction ms as [|[[_type _ref] _role] ms IH].
  - left. split; [constructor | by exists []].
  - cbn [Py.for_each ttl_member]. unfold Py.dict_get.
    destruct (OSM_ELEMENT_PREFIX !! _type) as [prefix|] eqn:Hp.
    + cbn [of_option mbind result_bind].
      destruct IH as [[Hall [parts ->]]|[Hex ->]].
      * left. split; [|by eexists]. constructor; [by exists prefix | exact Hall].
      * right. split; [by apply Exists_cons_tl | reflexivity].
    + right. split; [by apply Exists_cons_hd | reflexivity].
Qed.

(** X7. [to_ttl] raises nothing but [KeyError], and raises it exactly when
    the element has a member whose kind has no entry in
    [OSM_ELEMENT_PREFIX]; an element without members is always
    rendered. *)
Theorem to_ttl_raises_iff_member_kind_unknown (el : t) :
  (to_ttl el = Raise KeyError
   <-> Exists (fun m => OSM_ELEMENT_PREFIX !! m.1.1 = None)
         (default [] (_el_osm_members el)))
  /\ (forall e : exn, to_ttl el = Raise e -> e = KeyError).
Proof.
  unfold to_ttl, ttl_members.
  destruct (_el_osm_members el) as [[|m ms]|]; cbn [default].
  - split; [split; [discriminate | by intros ?%Exists_nil] | discriminate].
  - destruct (for_each_ttl_member_cases (m :: ms))
      as [[Hall [parts ->]]|[Hex ->]]; cbn [mbind result_bind].
    + split; [|discriminate]. split; [discriminate|].
      intros Hex. exfalso. apply Exists_exists in Hex as (m' & Hin & Hnone).
      rewrite Forall_forall in Hall. specialize (Hall m' Hin).
      rewrite Hnone in Hall. by destruct Hall.
    + split; [done | by intros e [= <-]].
  - split; [split; [discriminate | by intros ?%Exists_nil] | discriminate].
Qed.

Lemma ends_with_app (suffix a b : string) :
  ends_with suffix b -> ends_with suffix (a +:+ b).
Proof. intros [body ->]. exists (a +:+ body). by rewrite append_assoc. Qed.

Ltac statement :=
  split;
  [ reflexivity
  | repeat apply ends_with_app;
    first [ by exists "" | by exists "^^geo:wktLiteral"
          | by exists "^^xsd:dateTime" | by exists ")" ] ].

Ltac statement_block :=
  repeat match goal with
         | |- Forall _ (if ?c then _ else _) => destruct c
         | |- Forall _ (match ?c with _ => _ end) => destruct c
         | |- Forall _ [] => constructor
         | |- Forall _ (_ :: _) => constructor; [statement|]
         end.

Lemma statement_tags (el : t) : Forall statement_line (ttl_tags el).
Proof.
  unfold ttl_tags. destruct (_el_osm_tags el) as [tags|]; [|constructor].
  induction tags as [|[key value] tags IH]; [constructor|].
  cbn [map concat]. apply Forall_app. split; [|exact IH].
  unfold ttl_tag, OSMElementTagValueCast.to_ttl. statement_block.
Qed.

Lemma statement_members (el : t) (members : list string) :
  ttl_members el = Ok members -> Forall statement_line members.
Proof.
  unfold ttl_members.
  destruct (_el_osm_members el) as [[|m ms]|];
    try (intros [= <-]; constructor).
  intros Hm. apply bind_ok_inv in Hm as (parts & _ & [= <-]).
  statement_block.
Qed.

(** X8. A block returned by [to_ttl] opens with the subject of the
    element and closes with a line that holds a single dot; every line in
    between starts with the indentation and a prefix of the vocabulary
    and ends with a semicolon. *)
Theorem to_ttl_block_shape (el : t) (lines : list string) :
  to_ttl el = Ok lines ->
  exists inner,
    lines = _basegroup el :: inner ++ ["."]
    /\ Forall statement_line inner.
Proof.
  intros Hl. apply to_ttl_ok_inv in Hl as (members & Hm & ->).
  exists (ttl_changeset el ++ ttl_loc el ++ ttl_timestamp el ++ ttl_type el
            ++ ttl_user el ++ ttl_userid el ++ ttl_version el ++ ttl_tags el
            ++ ttl_nds el ++ members).
  split; [cbn [app]; by rewrite <- !app_assoc|].
  repeat (apply Forall_app; split);
    try apply statement_tags; try (by eapply statement_members).
  - unfold ttl_changeset. statement_block.
  - unfold ttl_loc. statement_block.
  - unfold ttl_timestamp. statement_block.
  - unfold ttl_type. statement_block.
  - unfold ttl_user. statement_block.
  - unfold ttl_userid. statement_block.
  - unfold ttl_version. statement_block.
  - unfold ttl_nds. statement_block.
Qed.

(** X11. [can_output] of an element built with a filter is the answer of
    [can_tag] of that filter on the kind given to the constructor. *)
Theorem can_output_is_can_tag (tag : string) (meta : gmap string string)
    (xml_tags : option (list (string * string))) (xml_nds : option (list Z))
    (xml_members : option (list (string * Z * option string)))
    (xml_filter : OSMElementFilter.t)
    (tagcaster : option OSMElementTagValueCast.t) (el : t) :
  __init__ tag meta xml_tags xml_nds xml_members (Some xml_filter) tagcaster
  = Ok el ->
  can_output el = Ok (OSMElementFilter.can_tag xml_filter tag).
Proof.
  intros Hinit.
  apply init_ok_fields in Hinit
    as (_ & _ & _ & _ & _ & _ & Htag & _ & _ & _ & Hf & _).
  unfold can_output. rewrite Hf, Htag.
  by destruct (OSMElementFilter.can_tag xml_filter tag).
Qed.

Ltac absent_block :=
  repeat match goal with
         | |- lines_with _ (if ?c then _ else _) = [] => destruct c
         | |- lines_with _ (match ?c with _ => _ end) = [] => destruct c
         | |- lines_with _ [] = [] => reflexivity
         | |- lines_with _ (_ :: _) = [] =>
             rewrite lines_with_other by reflexivity
         end.

(** The blocks around the tags hold no line of the tags nor of the
    caster. *)
Lemma lines_with_around_tags (p : string) (el : t) (members : list string) :
  p = "    osmt:" \/ p = "    osmx:wikidata" ->
  ttl_members el = Ok members ->
  lines_with p (ttl_changeset el) = []
  /\ lines_with p (ttl_loc el) = []
  /\ lines_with p (ttl_timestamp el) = []
  /\ lines_with p (ttl_type el) = []
  /\ lines_with p (ttl_user el) = []
  /\ lines_with p (ttl_userid el) = []
  /\ lines_with p (ttl_version el) = []
  /\ lines_with p (ttl_nds el) = []
  /\ lines_with p members = []
  /\ lines_with p ["."] = [].
Proof.
  intros Hp Hm.
  assert (Hmembers : lines_with p members = []).
  { revert Hm. unfold ttl_members.
    destruct (_el_osm_members el) as [[|m ms]|];
      try (by intros [= <-]).
    intros Hm. apply bind_ok_inv in Hm as (parts & _ & [= <-]).
    destruct Hp as [-> | ->]; absent_block. }
  unfold ttl_changeset, ttl_loc, ttl_timestamp, ttl_type, ttl_user,
    ttl_userid, ttl_version, ttl_nds.
  destruct Hp as [-> | ->]; repeat split; try exact Hmembers; absent_block.
Qed.

Lemma lines_with_subject_tags (p tag prefix rest : string) :
  p = "    osmt:" \/ p = "    osmx:wikidata" ->
  OSM_ELEMENT_PREFIX !! tag = Some prefix ->
  Py.startswith p (prefix +:+ rest) = false.
Proof.
  intros Hp Hprefix. apply prefix_cases in Hprefix.
  destruct Hp as [-> | ->];
    destruct Hprefix as [-> | [-> | [-> | ->]]]; reflexivity.
Qed.

Lemma lines_with_block (p : string) (tag : string)
    (meta : gmap string string)
    (xml_tags : option (list (string * string))) (xml_nds : option (list Z))
    (xml_members : option (list (string * Z * option string)))
    (xml_filter : option OSMElementFilter.t)
    (tagcaster : option OSMElementTagValueCast.t) (el : t)
    (lines : list string) :
  p = "    osmt:" \/ p = "    osmx:wikidata" ->
  __init__ tag meta xml_tags xml_nds xml_members xml_filter tagcaster = Ok el ->
  to_ttl el = Ok lines ->
  lines_with p lines = lines_with p (ttl_tags el).
Proof.
  intros Hp Hinit Hl.
  apply init_ok_fields in Hinit as (prefix & Hprefix & _ & _ & _ & Hbase & _).
  apply to_ttl_ok_inv in Hl as (members & Hm & ->).
  destruct (lines_with_around_tags p el members Hp Hm)
    as (H1 & H2 & H3 & H4 & H5 & H6 & H7 & H8 & H9 & H10).
  rewrite !lines_with_app, H1, H2, H3, H4, H5, H6, H7, H8, H9, H10.
  rewrite Hbase, lines_with_other by (by eapply lines_with_subject_tags).
  cbn [app]. by rewrite !app_nil_r.
Qed.

(** X9. In the rendering of an element, the lines that start with
    [osmt:] are the lines of its tags: one line per pair, in the order of
    the list given to the constructor, pairs with the same key
    included. *)
Theorem to_ttl_tag_lines_in_order (tag : string) (meta : gmap string string)
    (xml_tags : option (list (string * string))) (xml_nds : option (list Z))
    (xml_members : option (list (string * Z * option string)))
    (xml_filter : option OSMElementFilter.t)
    (tagcaster : option OSMElementTagValueCast.t) (el : t)
    (lines : list string) :
  __init__ tag meta xml_tags xml_nds xml_members xml_filter tagcaster = Ok el ->
  to_ttl el = Ok lines ->
  lines_with "    osmt:" lines = map tag_line (default [] xml_tags).
Proof.
  intros Hinit Hl.
  rewrite (lines_with_block _ _ _ _ _ _ _ _ _ _ (or_introl eq_refl) Hinit Hl).
  apply init_ok_fields in Hinit as (_ & _ & _ & _ & _ & _ & _ & Htags & _).
  unfold ttl_tags. rewrite Htags. clear Htags.
  destruct xml_tags as [tags|]; [|reflexivity].
  change (default [] (Some tags)) with tags. induction tags as [|[key value] tags IH]; [reflexivity|].
  cbn [map concat]. rewrite lines_with_app, IH. unfold ttl_tag.
  rewrite lines_with_same by reflexivity.
  replace (lines_with "    osmt:"
             match _tagcaster el with
             | Some caster =>
                 if OSMElementTagValueCast.can_cast caster
                      (osmrdf_tagkey_encode key)
                 then [OSMElementTagValueCast.to_ttl caster
                         (osmrdf_tagkey_encode key) value]
                 else []
             | None => []
             end) with (@nil string); [reflexivity|].
  symmetry. unfold OSMElementTagValueCast.to_ttl. absent_block.
Qed.

Lemma has_percent_cons (c : ascii) (s : string) :
  Py.str_in "%" (String c s) = Ascii.eqb "%" c || Py.str_in "%" s.
Proof.
  cbn [Py.str_in Py.startswith]. by destruct (Ascii.eqb "%" c).
Qed.

(** A key is left as it is by the encoder when the result has no
    percent sign. *)
Lemma encode_without_percent (k : string) :
  Py.str_in "%" (osmrdf_tagkey_encode k) = false ->
  osmrdf_tagkey_encode k = k.
Proof.
  induction k as [|c k IH]; [reflexivity|].
  rewrite osmrdf_tagkey_encode_cons.
  destruct (Ascii.eqb c " ") eqn:E.
  - rewrite !append_cons, has_percent_cons. discriminate.
  - rewrite append_cons, append_nil, has_percent_cons.
    intros [_ Hk]%orb_false_elim. by rewrite IH.
Qed.

Lemma can_cast_encoded (caster : OSMElementTagValueCast.t) (key : string) :
  OSMElementTagValueCast.can_cast caster (osmrdf_tagkey_encode key) = true
  <-> key = "wikidata".
Proof.
  unfold OSMElementTagValueCast.can_cast. rewrite list_in_spec.
  rewrite list_elem_of_singleton. split.
  - intros Hk. rewrite <- Hk. symmetry. apply encode_without_percent.
    by rewrite Hk.
  - by intros ->.
Qed.

(** X10. In the rendering of an element built with a caster, the lines
    that start with [osmx:wikidata] are one line [wikidata:<value>] for
    each pair whose key is exactly [wikidata], in the order of the tags;
    an element built without a caster has no such line. *)
Theorem to_ttl_wikidata_lines (tag : string) (meta : gmap string string)
    (xml_tags : option (list (string * string))) (xml_nds : option (list Z))
    (xml_members : option (list (string * Z * option string)))
    (xml_filter : option OSMElementFilter.t)
    (tagcaster : option OSMElementTagValueCast.t) (el : t)
    (lines : list string) :
  __init__ tag meta xml_tags xml_nds xml_members xml_filter tagcaster = Ok el ->
  to_ttl el = Ok lines ->
  lines_with "    osmx:wikidata" lines
  = match tagcaster with
    | Some _ =>
        map wikidata_line
          (filter (fun kv => kv.1 = "wikidata") (default [] xml_tags))
    | None => []
    end.
Proof.
  intros Hinit Hl.
  rewrite (lines_with_block _ _ _ _ _ _ _ _ _ _ (or_intror eq_refl) Hinit Hl).
  apply init_ok_fields in Hinit
    as (_ & _ & _ & _ & _ & _ & _ & Htags & _ & _ & _ & Hc).
  unfold ttl_tags. rewrite Htags. clear Htags.
  destruct xml_tags as [tags|]; [|by destruct tagcaster].
  change (default [] (Some tags)) with tags.
  induction tags as [|[key value] tags IH]; [by destruct tagcaster|].
  cbn [map concat]. rewrite lines_with_app, IH. unfold ttl_tag.
  rewrite lines_with_other by reflexivity. rewrite Hc.
  destruct tagcaster as [caster|].
  - destruct (OSMElementTagValueCast.can_cast caster
                (osmrdf_tagkey_encode key)) eqn:Hcast.
    + apply can_cast_encoded in Hcast as ->.
      rewrite filter_cons_True by reflexivity.
      by rewrite lines_with_same by reflexivity.
    + rewrite filter_cons_False; [reflexivity|].
      cbn. intros Hkey. apply (can_cast_encoded caster) in Hkey. congruence.
  - reflexivity.
Qed.

End ElementGeneral.

Lemma init_outcomes_witness :
  @OSMElement.__init__ example_builtins "node" {[ "id" := "one" ]}
    None None None None None = Raise ValueError
  /\ @OSMElement.__init__ example_builtins "changeset" meta_id_1
       None None None None None = Raise KeyError
  /\ exists el,
      @OSMElement.__init__ example_builtins "way" meta_id_1
        None None None None None = Ok el.
Proof.
  split; [|split].
  - apply (proj1 (@init_outcomes example_builtins "node" {[ "id" := "one" ]}
                    None None None None None)).
    intros [Hid _]. vm_compute in Hid. by destruct Hid.
  - apply (proj1 (proj2 (@init_outcomes example_builtins "changeset" meta_id_1
                           None None None None None))).
    + repeat split; vm_compute; by eauto.
    + reflexivity.
  - apply (proj2 (proj2 (@init_outcomes example_builtins "way" meta_id_1
                           None None None None None))).
    + repeat split; vm_compute; by eauto.
    + vm_compute. by eexists.
Defined.

Section ElementGeneralExamples.
Import OSMElement.

Lemma to_ttl_raises_iff_member_kind_unknown_witness :
  exists el,
    @__init__ example_builtins "relation" meta_id_1 None None
      (Some [("area", 5%Z, None)]) None None = Ok el
    /\ @to_ttl example_builtins el = Raise KeyError.
Proof.
  eexists. split; [vm_compute; reflexivity|].
  apply (proj2 (proj1 (@to_ttl_raises_iff_member_kind_unknown
                         example_builtins _))).
  apply Exists_cons_hd. reflexivity.
Defined.

Lemma to_ttl_block_shape_witness :
  exists el lines,
    @__init__ example_builtins "node" meta_cafe (Some example_tags)
      None None None None = Ok el
    /\ @to_ttl example_builtins el = Ok lines
    /\ exists inner,
        lines = _basegroup el :: inner ++ ["."]
        /\ Forall statement_line inner.
Proof.
  eexists. eexists.
  split; [vm_compute; reflexivity|]. split; [vm_compute; reflexivity|].
  refine (@to_ttl_block_shape example_builtins _ _ _).
  vm_compute; reflexivity.
Defined.

Lemma to_ttl_tag_lines_in_order_witness :
  exists el lines,
    @__init__ example_builtins "node" meta_id_1 (Some example_tags)
      None None None None = Ok el
    /\ @to_ttl example_builtins el = Ok lines
    /\ lines_with "    osmt:" lines
       = ["    osmt:name " +:+ Py.DQ +:+ "a" +:+ Py.DQ +:+ " ;";
          "    osmt:wikidata " +:+ Py.DQ +:+ "Q42" +:+ Py.DQ +:+ " ;";
          "    osmt:name " +:+ Py.DQ +:+ "b" +:+ Py.DQ +:+ " ;"].
Proof.
  eexists. eexists.
  split; [vm_compute; reflexivity|]. split; [vm_compute; reflexivity|].
  refine (@to_ttl_tag_lines_in_order example_builtins "node" meta_id_1
            (Some example_tags) None None None None _ _ _ _);
    vm_compute; reflexivity.
Defined.

Lemma to_ttl_wikidata_lines_witness :
  exists el lines,
    @__init__ example_builtins "node" meta_id_1 (Some example_tags)
      None None None (Some (OSMElementTagValueCast.__init__ None)) = Ok el
    /\ @to_ttl example_builtins el = Ok lines
    /\ lines_with "    osmx:wikidata" lines
       = ["    osmx:wikidata wikidata:Q42 ;"].
Proof.
  eexists. eexists.
  split; [vm_compute; reflexivity|]. split; [vm_compute; reflexivity|].
  refine (@to_ttl_wikidata_lines example_builtins "node" meta_id_1
            (Some example_tags) None None None
            (Some (OSMElementTagValueCast.__init__ None)) _ _ _ _);
    vm_compute; reflexivity.
Defined.

Lemma can_output_is_can_tag_witness :
  exists el,
    @__init__ example_builtins "node" meta_id_1 None None None
      (Some (OSMElementFilter.set_filter_xml_tags
               OSMElementFilter.__init__ ["way"; "relation"])) None = Ok el
    /\ can_output el = Ok false.
Proof.
  eexists. split; [vm_compute; reflexivity|].
  refine (@can_output_is_can_tag example_builtins "node" meta_id_1
            None None None
            (OSMElementFilter.set_filter_xml_tags
               OSMElementFilter.__init__ ["way"; "relation"]) None _ _).
  vm_compute; reflexivity.
Defined.

End ElementGeneralExamples.

(** ** More on the tag key encoder *)

Lemma has_space_cons (c : ascii) (s : string) :
  Py.str_in " " (String c s) = Ascii.eqb " " c || Py.str_in " " s.
Proof.
  cbn [Py.str_in Py.startswith]. by destruct (Ascii.eqb " " c).
Qed.

Lemma encode_has_no_space (s : string) :
  Py.str_in " " (osmrdf_tagkey_encode s) = false.
Proof.
  induction s as [|c s IH]; [reflexivity|].
  rewrite osmrdf_tagkey_encode_cons.
  destruct (Ascii.eqb c " ") eqn:E.
  - rewrite !append_cons, append_nil, !has_space_cons, IH. reflexivity.
  - rewrite append_cons, append_nil, has_space_cons, IH.
    by rewrite Ascii.eqb_sym, E.
Qed.

(** X12. The name returned by [osmrdf_tagkey_encode] never holds a space,
    and the encoder gives a key back unchanged exactly when the key holds
    no space. *)
Theorem osmrdf_tagkey_encode_no_space (s : string) :
  Py.str_in " " (osmrdf_tagkey_encode s) = false
  /\ (osmrdf_tagkey_encode s = s <-> Py.str_in " " s = false).
Proof.
  split; [apply encode_has_no_space|]. split.
  - intros Hs. rewrite <- Hs. apply encode_has_no_space.
  - induction s as [|c s IH]; [reflexivity|].
    rewrite has_space_cons, osmrdf_tagkey_encode_cons.
    intros [Hc Hs]%orb_false_elim.
    rewrite Ascii.eqb_sym, Hc, append_cons, append_nil. by rewrite IH.
Qed.

Lemma app_space_differs (a b : string) :
  a +:+ " " +:+ b <> a +:+ "%20" +:+ b.
Proof.
  induction a as [|c a IH].
  - rewrite !append_nil. discriminate.
  - rewrite !append_cons. intros [= Ha]. by apply IH.
Qed.

(** X13. The encoder does not tell a space from a percent sign followed
    by [20]: two different keys, one with a space and one with [%20]
    written out at the same place, get the same name. *)
Theorem osmrdf_tagkey_encode_collision (a b : string) :
  a +:+ " " +:+ b <> a +:+ "%20" +:+ b
  /\ osmrdf_tagkey_encode (a +:+ " " +:+ b)
     = osmrdf_tagkey_encode (a +:+ "%20" +:+ b).
Proof.
  split; [apply app_space_differs|].
  by rewrite !osmrdf_tagkey_encode_app.
Qed.

(** ** Reading one element of a document *)

Section NodeGeneral.
Context `{Py.Builtins} `{XmlReader}.

(** X14. A document whose root has no child holds no element: [node]
    returns [None], and each of the three conversions fails with
    [AttributeError] at [osmnode.to_ttl()]. *)
Theorem conversions_without_child_raise (data_xml : string)
    (root : xml_element) :
  fromstring data_xml = Ok root ->
  xml_children root = [] ->
  osmrdf_node_xml2ttl data_xml = Raise AttributeError
  /\ osmrdf_way_xml2ttl data_xml = Raise AttributeError
  /\ osmrdf_relation_xml2ttl data_xml = Raise AttributeError.
Proof.
  intros Hroot Hnone.
  unfold osmrdf_node_xml2ttl, osmrdf_way_xml2ttl, osmrdf_relation_xml2ttl,
    OSMApiv06Xml.__init__, OSMApiv06Xml.node.
  rewrite Hroot. cbn [mbind result_bind OSMApiv06Xml.xmlroot].
  rewrite Hnone. done.
Qed.

Lemma read_tag_missing (item : xml_element) :
  xml_attrib item !! "k" = None \/ xml_attrib item !! "v" = None ->
  OSMApiv06Xml.read_tag item = Raise KeyError.
Proof.
  unfold OSMApiv06Xml.read_tag, Py.dict_get.
  intros [-> | ->]; [reflexivity|].
  by destruct (xml_attrib item !! "k").
Qed.

Lemma read_tag_raises (item : xml_element) (e : exn) :
  OSMApiv06Xml.read_tag item = Raise e -> e = KeyError.
Proof.
  unfold OSMApiv06Xml.read_tag, Py.dict_get.
  destruct (xml_attrib item !! "k"); [|by intros [= <-]].
  destruct (xml_attrib item !! "v"); [discriminate | by intros [= <-]].
Qed.

Lemma for_each_read_tag_missing (items : list xml_element) :
  Exists (fun item => xml_attrib item !! "k" = None
                      \/ xml_attrib item !! "v" = None) items ->
  Py.for_each OSMApiv06Xml.read_tag items = Raise KeyError.
Proof.
  induction 1 as [item items Hitem|item items _ IH]; cbn [Py.for_each].
  - by rewrite read_tag_missing.
  - destruct (OSMApiv06Xml.read_tag item) as [kv|e] eqn:Hitem.
    + cbn [mbind result_bind]. by rewrite IH.
    + by apply read_tag_raises in Hitem as ->.
Qed.

(** X15. When a [tag] child of the first element lacks the attribute [k]
    or the attribute [v], [node] raises [KeyError], whatever the other
    tags, the references and the attributes of the element are: the tags
    are read first. *)
Theorem node_tag_without_key_or_value (self : OSMApiv06Xml.t)
    (child : xml_element) (others : list xml_element) :
  xml_children (OSMApiv06Xml.xmlroot self) = child :: others ->
  Exists (fun item => xml_attrib item !! "k" = None
                      \/ xml_attrib item !! "v" = None)
    (findall child "tag") ->
  OSMApiv06Xml.node self = Raise KeyError.
Proof.
  intros Hchild Hbad. unfold OSMApiv06Xml.node, OSMApiv06Xml.read_all.
  rewrite Hchild.
  destruct (findall child "tag") as [|item items] eqn:Hitems.
  - by apply Exists_nil in Hbad.
  - by rewrite for_each_read_tag_missing.
Qed.

End NodeGeneral.

Lemma conversions_without_child_raise_witness :
  @osmrdf_node_xml2ttl example_builtins
    (reader_of "<osm/>" (XmlElement "osm" ∅ [])) "<osm/>"
  = Raise AttributeError.
Proof.
  apply (@conversions_without_child_raise example_builtins
           (reader_of "<osm/>" (XmlElement "osm" ∅ [])) "<osm/>"
           (XmlElement "osm" ∅ [])); reflexivity.
Defined.

Lemma node_tag_without_key_or_value_witness :
  @OSMApiv06Xml.node example_builtins
    {| OSMApiv06Xml.xmlroot :=
         XmlElement "osm" ∅
           [XmlElement "node" meta_id_1
              [XmlElement "tag" {[ "k" := "name" ]} []]];
       OSMApiv06Xml.root_tag := "osm";
       OSMApiv06Xml.root_attrib := ∅ |}
  = Raise KeyError.
Proof.
  refine (@node_tag_without_key_or_value example_builtins _
            (XmlElement "node" meta_id_1
               [XmlElement "tag" {[ "k" := "name" ]} []]) [] _ _).
  - reflexivity.
  - apply Exists_cons_hd. right. reflexivity.
Defined.

(** ** Streaming of a dump *)

Section DumpGeneral.
Context `{Py.Builtins}.
Import DumpV2.

Variable retagger : OSMElementTagger.t.
Variable xml_filter : option OSMElementFilter.t.
Variable tagcaster : OSMElementTagValueCast.t.

(** One pass from a state between two elements, compared with the same
    pass from the fresh state. *)
Lemma step_between_elements (st st' : state) (elem : xml_element) :
  between_elements st ->
  step retagger xml_filter tagcaster st elem = Ok st' ->
  between_elements st'
  /\ exists block,
      printed_alone retagger xml_filter tagcaster elem = Ok block
      /\ stdout st' = stdout st ++ block
      /\ count st' = count st + length block.
Proof.
  intros (Ht & Hn & Hm). unfold printed_alone, step.
  rewrite Ht, Hn, Hm. cbn [xml_tags xml_nds xml_members fresh_state].
  destruct (passed_over (xml_tag elem)).
  - intros [= <-]. split; [done|]. exists [].
    cbn. by rewrite app_nil_r, Nat.add_0_r.
  - destruct (Py.for_each OSMApiv06Xml.read_tag (findall elem "tag"))
      as [explicit|e]; [|discriminate]. cbn [mbind result_bind].
    destruct (OSMElementTagger.retag retagger (xml_tag elem) ([] ++ explicit))
      as [tags1|e]; [|discriminate]. cbn [mbind result_bind].
    destruct (Py.for_each OSMApiv06Xml.read_tag (findall elem "tagi"))
      as [implicit|e]; [|discriminate]. cbn [mbind result_bind].
    destruct (OSMElementTagger.retag retagger (xml_tag elem)
                (tags1 ++ implicit)) as [tags2|e]; [|discriminate].
    cbn [mbind result_bind].
    destruct (refreshed OSMApiv06Xml.read_nd (findall elem "nd") [])
      as [nds|e]; [|discriminate]. cbn [mbind result_bind].
    destruct (refreshed OSMApiv06Xml.read_member (findall elem "member") [])
      as [members|e]; [|discriminate]. cbn [mbind result_bind].
    destruct (OSMElement.__init__ (xml_tag elem) (xml_attrib elem)
                (Some tags2) (Some nds) (Some members) xml_filter
                (Some tagcaster)) as [el|e]; [|discriminate].
    cbn [mbind result_bind].
    destruct (OSMElement.can_output el) as [[|]|e]; [| |discriminate];
      cbn [mbind result_bind].
    + destruct (OSMElement.to_ttl el) as [ttl|e]; [|discriminate].
      cbn [mbind result_bind]. intros [= <-]. split; [done|].
      eexists. split; [reflexivity|]. cbn. split; [done | lia].
    + intros [= <-]. split; [done|]. exists [].
      cbn. by rewrite app_nil_r, Nat.add_0_r.
Qed.

Lemma loop_between_elements (events : list xml_element) (st st' : state) :
  between_elements st ->
  loop retagger xml_filter tagcaster st events = Ok st' ->
  between_elements st'
  /\ exists blocks,
      Forall2 (fun elem block =>
                 printed_alone retagger xml_filter tagcaster elem = Ok block)
        events blocks
      /\ stdout st' = stdout st ++ concat blocks
      /\ count st' = count st + length (concat blocks).
Proof.
  revert st. induction events as [|elem events IH]; intros st Hst Hloop.
  - injection Hloop as <-. split; [done|]. exists [].
    cbn. by rewrite app_nil_r, Nat.add_0_r.
  - cbn [loop] in Hloop.
    apply bind_ok_inv in Hloop as (st1 & Hstep & Hloop).
    destruct (step_between_elements st st1 elem Hst Hstep)
      as (Hst1 & block & Hblock & Hout & Hcount).
    destruct (IH st1 Hst1 Hloop) as (Hst' & blocks & Hblocks & Hout' & Hcount').
    split; [done|]. exists (block :: blocks).
    split; [by constructor|]. cbn [concat].
    rewrite Hout', Hout, Hcount', Hcount, length_app, <- app_assoc.
    split; [reflexivity | lia].
Qed.

End DumpGeneral.

Section DumpRuns.
Context `{Py.Builtins}.
Import DumpV2.

(** X16. What a run of [osmrdf_xmldump2_ttl_v2] that ends normally has
    printed is the two header items followed, element by element, by what
    each element makes the loop print when it is taken alone: the tags,
    references and members read for one element are never carried over to
    the next one. *)
Theorem dump_v2_prints_element_by_element (events : list xml_element)
    (xml_filter : option OSMElementFilter.t) (retagger : option string)
    (out : list string) :
  osmrdf_xmldump2_ttl_v2 events xml_filter retagger = Ok out ->
  exists tagger blocks,
    OSMElementTagger.__init__ retagger = Ok tagger
    /\ Forall2 (fun elem block =>
                  printed_alone tagger xml_filter
                    (OSMElementTagValueCast.__init__ None) elem = Ok block)
         events blocks
    /\ out = dump_header ++ concat blocks.
Proof.
  unfold osmrdf_xmldump2_ttl_v2. intros Hrun.
  apply bind_ok_inv in Hrun as (tagger & Htagger & Hrun).
  apply bind_ok_inv in Hrun as (st' & Hloop & [= <-]).
  apply loop_between_elements in Hloop as (_ & blocks & Hblocks & Hout & _);
    [|done].
  exists tagger, blocks. done.
Qed.

Lemma printed_alone_ok_inv (tagger : OSMElementTagger.t)
    (xml_filter : option OSMElementFilter.t)
    (tagcaster : OSMElementTagValueCast.t) (elem : xml_element)
    (block : list string) :
  printed_alone tagger xml_filter tagcaster elem = Ok block ->
  (passed_over (xml_tag elem) = true /\ block = [])
  \/ (passed_over (xml_tag elem) = false
      /\ exists tags nds members el can,
          OSMElement.__init__ (xml_tag elem) (xml_attrib elem)
            (Some tags) (Some nds) (Some members) xml_filter (Some tagcaster)
          = Ok el
          /\ OSMElement.can_output el = Ok can).
Proof.
  unfold printed_alone, step. cbn [xml_tags xml_nds xml_members fresh_state].
  destruct (passed_over (xml_tag elem)).
  - intros [= <-]. by left.
  - intros Hp. right. split; [done|].
    apply bind_ok_inv in Hp as (st & Hp & _).
    apply bind_ok_inv in Hp as (explicit & _ & Hp).
    apply bind_ok_inv in Hp as (tags1 & _ & Hp).
    apply bind_ok_inv in Hp as (implicit & _ & Hp).
    apply bind_ok_inv in Hp as (tags2 & _ & Hp).
    apply bind_ok_inv in Hp as (nds & _ & Hp).
    apply bind_ok_inv in Hp as (members & _ & Hp).
    apply bind_ok_inv in Hp as (el & Hel & Hp).
    apply bind_ok_inv in Hp as (can & Hcan & _).
    by exists tags2, nds, members, el, can.
Qed.

(** X17. Called without a filter, as its default argument allows,
    [osmrdf_xmldump2_ttl_v2] prints no element: a run can only end
    normally when every element of the dump is one of those passed over,
    and it has then printed the header alone.  Any node, way or relation
    stops it with an exception, since [can_output] needs a filter. *)
Theorem dump_v2_without_filter_prints_header_only
    (events : list xml_element) (retagger : option string)
    (out : list string) :
  osmrdf_xmldump2_ttl_v2 events None retagger = Ok out ->
  Forall (fun elem => passed_over (xml_tag elem) = true) events
  /\ out = dump_header.
Proof.
  unfold osmrdf_xmldump2_ttl_v2. intros Hrun.
  apply bind_ok_inv in Hrun as (tagger & _ & Hrun).
  apply bind_ok_inv in Hrun as (st' & Hloop & [= <-]).
  apply loop_between_elements in Hloop as (_ & blocks & Hblocks & -> & _);
    [|done].
  cbn [stdout]. fold dump_header.
  assert (Hall : Forall (fun elem => passed_over (xml_tag elem) = true) events
                 /\ concat blocks = []).
  { induction Hblocks as [|elem block events blocks Hblock _ [IH1 IH2]];
      [by split|].
    apply printed_alone_ok_inv in Hblock
      as [[Hp ->]|(_ & tags & nds & members & el & can & Hel & Hcan)].
    - split; [by constructor | exact IH2].
    - apply init_ok_fields in Hel
        as (_ & _ & _ & _ & _ & _ & _ & _ & _ & _ & Hf & _).
      unfold OSMElement.can_output in Hcan. rewrite Hf in Hcan.
      discriminate. }
  destruct Hall as [Hall ->]. split; [exact Hall | by rewrite app_nil_r].
Qed.

Lemma prefix_key_cases (tag prefix : string) :
  OSM_ELEMENT_PREFIX !! tag = Some prefix ->
  tag ∈ ["node"; "relation"; "tag"; "way"].
Proof.
  unfold OSM_ELEMENT_PREFIX.
  rewrite !lookup_insert_Some, lookup_empty.
  intros Hcases.
  repeat (destruct Hcases as [[<- _]|[_ Hcases]];
          [apply list_elem_of_In; cbn; tauto|]).
  discriminate.
Qed.

(** X18. A run of [osmrdf_xmldump2_ttl_v2] that ends normally has met no
    element under another name than those passed over ([osm], [bounds],
    [nd], [member], [tag], [tagi]) and [node], [relation], [way]: an
    element of any other name, a [changeset] for one, stops the run with
    an exception, with or without a filter. *)
Theorem dump_v2_known_names_only (events : list xml_element)
    (xml_filter : option OSMElementFilter.t) (retagger : option string)
    (out : list string) :
  osmrdf_xmldump2_ttl_v2 events xml_filter retagger = Ok out ->
  Forall (fun elem => xml_tag elem ∈ known_names) events.
Proof.
  unfold osmrdf_xmldump2_ttl_v2. intros Hrun.
  apply bind_ok_inv in Hrun as (tagger & _ & Hrun).
  apply bind_ok_inv in Hrun as (st' & Hloop & _).
  apply loop_between_elements in Hloop as (_ & blocks & Hblocks & _);
    [|done].
  induction Hblocks as [|elem block events blocks Hblock _ IH];
    constructor; [|exact IH].
  apply printed_alone_ok_inv in Hblock
    as [[Hp _]|(Hp & tags & nds & members & el & can & Hel & _)].
  - unfold passed_over in Hp. apply list_in_spec in Hp.
    apply list_elem_of_In in Hp. apply list_elem_of_In.
    cbn in *. tauto.
  - apply init_ok_fields in Hel as (prefix & Hprefix & _).
    apply prefix_key_cases in Hprefix.
    apply list_elem_of_In in Hprefix. apply list_elem_of_In.
    unfold passed_over in Hp. cbn in *.
    destruct Hprefix as [<-|[<-|[<-|[<-|[]]]]]; tauto.
Qed.

End DumpRuns.

Lemma dump_v2_prints_element_by_element_witness :
  @DumpV2.osmrdf_xmldump2_ttl_v2 example_builtins dump_events
    (Some ways_only) (Some docstring_rule_1)
  = Ok (dump_header
          ++ ["osmway:1" +:+ Py.LF
                +:+ "    osmm:type " +:+ Py.DQ +:+ "w" +:+ Py.DQ +:+ " ;"
                +:+ Py.LF
                +:+ "    osmt:name " +:+ Py.DQ +:+ "x" +:+ Py.DQ +:+ " ;"
                +:+ Py.LF +:+ "." +:+ Py.LF])
  /\ exists tagger blocks,
      OSMElementTagger.__init__ (Some docstring_rule_1) = Ok tagger
      /\ Forall2 (fun elem block =>
                    @printed_alone example_builtins tagger (Some ways_only)
                      (OSMElementTagValueCast.__init__ None) elem = Ok block)
           dump_events blocks
      /\ dump_header
           ++ ["osmway:1" +:+ Py.LF
                 +:+ "    osmm:type " +:+ Py.DQ +:+ "w" +:+ Py.DQ +:+ " ;"
                 +:+ Py.LF
                 +:+ "    osmt:name " +:+ Py.DQ +:+ "x" +:+ Py.DQ +:+ " ;"
                 +:+ Py.LF +:+ "." +:+ Py.LF]
         = dump_header ++ concat blocks.
Proof.
  assert (Hrun : @DumpV2.osmrdf_xmldump2_ttl_v2 example_builtins dump_events
                   (Some ways_only) (Some docstring_rule_1)
                 = Ok (dump_header
                         ++ ["osmway:1" +:+ Py.LF
                               +:+ "    osmm:type " +:+ Py.DQ +:+ "w"
                               +:+ Py.DQ +:+ " ;" +:+ Py.LF
                               +:+ "    osmt:name " +:+ Py.DQ +:+ "x"
                               +:+ Py.DQ +:+ " ;"
                               +:+ Py.LF +:+ "." +:+ Py.LF]))
    by (vm_compute; reflexivity).
  split; [exact Hrun|].
  exact (@dump_v2_prints_element_by_element example_builtins _ _ _ _ Hrun).
Defined.

Lemma dump_v2_without_filter_prints_header_only_witness :
  @DumpV2.osmrdf_xmldump2_ttl_v2 example_builtins
    [XmlElement "bounds" ∅ []; XmlElement "osm" ∅ []] None None
  = Ok dump_header
  /\ Forall (fun elem => DumpV2.passed_over (xml_tag elem) = true)
       [XmlElement "bounds" ∅ []; XmlElement "osm" ∅ []].
Proof.
  assert (Hrun : @DumpV2.osmrdf_xmldump2_ttl_v2 example_builtins
                   [XmlElement "bounds" ∅ []; XmlElement "osm" ∅ []] None None
                 = Ok dump_header) by (vm_compute; reflexivity).
  split; [exact Hrun|].
  exact (proj1 (@dump_v2_without_filter_prints_header_only example_builtins
                  _ _ _ Hrun)).
Defined.

Lemma dump_v2_known_names_only_witness :
  Forall (fun elem => xml_tag elem ∈ known_names) dump_events.
Proof.
  refine (@dump_v2_known_names_only example_builtins dump_events
            (Some ways_only) (Some docstring_rule_1) _ _).
  vm_compute; reflexivity.
Defined.

(** Without a filter, the dump of the examples stops at its first node. *)
Example dump_v2_without_filter_raises :
  @DumpV2.osmrdf_xmldump2_ttl_v2 example_builtins dump_events None None
  = Raise AttributeError.
Proof. vm_compute. reflexivity. Qed.

(** ** The request handler *)

Section HandlerGeneral.
Context `{Py.Builtins} `{XmlReader}.
Import Handler.

Variable upstream : Upstream.

(** The answer to a served path, when there is one, carries a text. *)
Lemma handle_served_text (path : string) (a : answer) :
  served path = true -> handle path = Ok a ->
  exists body_text, answer_body a = BodyText body_text.
Proof.
  intros Hs. unfold handle. fold (served path). rewrite Hs.
  cbn [negb]. cbv zeta. intros Ha.
  apply bind_ok_inv in Ha as (ct & _ & Ha).
  apply bind_ok_inv in Ha as (converted & _ & [= <-]).
  by eexists.
Qed.

(** X19. [handle] gives its fixed 404 answer exactly for the paths that
    do not start with [/node/], [/way/] or [/relation/]; for such a path
    the upstream plays no part, and for a served path no answer of the
    upstream, not even a 404 of its own, produces that answer. *)
Theorem handle_not_found_iff_not_served (path : string) :
  handle path = Ok not_found <-> served path = false.
Proof.
  split.
  - intros Ha. destruct (served path) eqn:Hs; [|reflexivity].
    destruct (handle_served_text path not_found Hs Ha) as [body_text Hb].
    discriminate.
  - unfold served, handle. intros ->. reflexivity.
Qed.

(** X20. For a served path: an upstream answer without a [Content-Type]
    header makes [handle] raise [KeyError], whatever its status; an
    answer with another status than 200 is handed on as it is, status,
    content type and text; an answer with status 200 is converted by the
    function of the kind named in the path and sent as [text/turtle] with
    status 200, and an exception of the conversion is not caught. *)
Theorem handle_served_path (path : string) :
  served path = true ->
  let content := requests_get (OSM_API_DE_FACTO +:+ path) in
  (headers content "Content-Type" = None -> handle path = Raise KeyError)
  /\ (forall ct : string,
        headers content "Content-Type" = Some ct ->
        status_code content <> 200%Z ->
        handle path
        = Ok {| statusCode := status_code content; content_type := ct;
                answer_body := BodyText (text content) |})
  /\ (forall ct : string,
        headers content "Content-Type" = Some ct ->
        status_code content = 200%Z ->
        handle path
        = (turtle ← (if Py.startswith "/node/" path
                     then osmrdf_node_xml2ttl (text content)
                     else if Py.startswith "/relation/" path
                     then osmrdf_relation_xml2ttl (text content)
                     else osmrdf_way_xml2ttl (text content));
           Ok {| statusCode := 200; content_type := "text/turtle";
                 answer_body := BodyText turtle |})).
Proof.
  intros Hs content. subst content.
  unfold handle. fold (served path). rewrite Hs.
  cbn [negb]. cbv zeta.
  set (content := requests_get (OSM_API_DE_FACTO +:+ path)).
  split; [by intros ->|]. split.
  - intros ct -> Hstatus. cbn [of_option mbind result_bind].
    apply Z.eqb_neq in Hstatus. by rewrite Hstatus.
  - intros ct -> Hstatus. cbn [of_option mbind result_bind].
    rewrite Hstatus. cbn [Z.eqb Pos.eqb].
    unfold served in Hs.
    destruct (Py.startswith "/node/" path) eqn:Hn.
    + apply startswith_spec in Hn as [rest Hn].
      assert (Hn' : Py.startswith "/node" path = true) by (by rewrite Hn).
      rewrite Hn'. by destruct (osmrdf_node_xml2ttl (text content)).
    + destruct (Py.startswith "/relation/" path) eqn:Hr.
      * apply startswith_spec in Hr as [rest Hr].
        assert (Hn' : Py.startswith "/node" path = false) by (by rewrite Hr).
        assert (Hr' : Py.startswith "/relation" path = true)
          by (by rewrite Hr).
        rewrite Hn', Hr'.
        by destruct (osmrdf_relation_xml2ttl (text content)).
      * cbn [orb] in Hs. rewrite orb_false_r in Hs.
        apply startswith_spec in Hs as [rest Hw].
        assert (Hn' : Py.startswith "/node" path = false) by (by rewrite Hw).
        assert (Hr' : Py.startswith "/relation" path = false)
          by (by rewrite Hw).
        assert (Hw' : Py.startswith "/way" path = true) by (by rewrite Hw).
        rewrite Hn', Hr', Hw'.
        by destruct (osmrdf_way_xml2ttl (text content)).
Qed.

End HandlerGeneral.

Lemma handle_not_found_iff_not_served_witness :
  @Handler.handle example_builtins (reader_of relation_doc relation_root)
    (upstream_of relation_doc 200) "/nodes/1"
  = Ok not_found.
Proof.
  apply (proj2 (@handle_not_found_iff_not_served example_builtins
                  (reader_of relation_doc relation_root)
                  (upstream_of relation_doc 200) "/nodes/1")).
  reflexivity.
Defined.

Lemma handle_served_path_witness :
  @Handler.handle example_builtins (reader_of relation_doc relation_root)
    (upstream_without_headers relation_doc) "/relation/1"
  = Raise KeyError
  /\ @Handler.handle example_builtins (reader_of relation_doc relation_root)
       (upstream_of "gone" 410) "/relation/1"
     = Ok {| Handler.statusCode := 410;
             Handler.content_type := "application/xml";
             Handler.answer_body := Handler.BodyText "gone" |}
  /\ @Handler.handle example_builtins (reader_of relation_doc relation_root)
       (upstream_of relation_doc 200) "/relation/1"
     = Ok {| Handler.statusCode := 200;
             Handler.content_type := "text/turtle";
             Handler.answer_body :=
               Handler.BodyText
                 (turtle_document ["osmrel:1"; "."] +:+ Py.LF
                    +:+ "# <osm><relation id='1'/></osm>") |}.
Proof.
  split; [|split].
  - refine (proj1 (@handle_served_path example_builtins
                     (reader_of relation_doc relation_root)
                     (upstream_without_headers relation_doc) "/relation/1"
                     eq_refl) _).
    reflexivity.
  - refine (proj1 (proj2 (@handle_served_path example_builtins
                            (reader_of relation_doc relation_root)
                            (upstream_of "gone" 410) "/relation/1" eq_refl))
              "application/xml" _ _); [reflexivity | discriminate].
  - pose proof (proj2 (proj2 (@handle_served_path example_builtins
                                (reader_of relation_doc relation_root)
                                (upstream_of relation_doc 200) "/relation/1"
                                eq_refl))
                  "application/xml" eq_refl eq_refl) as Hh.
    rewrite Hh. vm_compute. reflexivity.
Defined.
